(** * console-python/todo_app.py: the task model and the task manager

    A shallow embedding of [Task] and [TodoManager].

    Conventions of the embedding.
    - A Python [str] is a Rocq [string]; its characters are the code points
      0..255 (the Latin-1 part of Unicode), on which [str.lower],
      [str.strip] and comparison are modelled exactly.
    - A Python [int] is a [Z]; [None]-or-text is an [option string].
    - A [dict] with text keys is a [gmap string value].
    - The text typed at each [input(...)] prompt is an argument of the
      operation, in prompt order; [int(input(...))] is taken as the parsed
      [Z] (a malformed number raises before anything is touched).
    - The messages an operation prints (its menus and prompts apart) are
      returned as a list of lines.
    - The backing file is the [disk] component of the manager state; it
      holds the parsed JSON array ([json.dump] followed by [json.load] is
      the identity on these values). *)

From Stdlib Require Import ZArith Ascii String DecimalString List Permutation Sorted Lia.
From stdpp Require Import base option list gmap strings.

Open Scope string_scope.
Open Scope Z_scope.

(** ** Python text primitives *)

Module Py.

Definition code (c : ascii) : N := N_of_ascii c.

(** [str.isspace] on one character of the Latin-1 range. *)
Definition isspace (c : ascii) : bool :=
  let n := code c in
  ((9 <=? n) && (n <=? 13) || (28 <=? n) && (n <=? 32)
   || (n =? 133) || (n =? 160))%N.

(** [str.lower] on one character of the Latin-1 range. *)
Definition lower_char (c : ascii) : ascii :=
  let n := code c in
  if ((65 <=? n) && (n <=? 90)
      || (192 <=? n) && (n <=? 222) && negb (n =? 215))%N
  then ascii_of_N (n + 32) else c.

Fixpoint lower (s : string) : string :=
  match s with
  | EmptyString => EmptyString
  | String c s' => String (lower_char c) (lower s')
  end.

(** Truthiness of a text: [if s:]. *)
Definition truthy (s : string) : bool :=
  match s with EmptyString => false | String _ _ => true end.

Fixpoint lstrip (s : string) : string :=
  match s with
  | EmptyString => EmptyString
  | String c s' => if isspace c then lstrip s' else s
  end.

Fixpoint rstrip (s : string) : string :=
  match s with
  | EmptyString => EmptyString
  | String c s' =>
      match rstrip s' with
      | EmptyString => if isspace c then EmptyString else String c EmptyString
      | r => String c r
      end
  end.

(** [s.strip()] *)
Definition strip (s : string) : string := rstrip (lstrip s).

(** [s.split(",")]: never empty, [""] splits into one empty field. *)
Fixpoint split_comma (s : string) : list string :=
  match s with
  | EmptyString => [EmptyString]
  | String c s' =>
      if Ascii.eqb c "," then EmptyString :: split_comma s'
      else match split_comma s' with
           | [] => [String c EmptyString]
           | w :: ws => String c w :: ws
           end
  end.

(** [s.startswith(k)] *)
Fixpoint startswith (k s : string) : bool :=
  match k, s with
  | EmptyString, _ => true
  | String a k', String b s' => Ascii.eqb a b && startswith k' s'
  | String _ _, EmptyString => false
  end.

(** [k in s]: [k] occurs in [s] as a contiguous run. *)
Fixpoint contains (k s : string) : bool :=
  startswith k s ||
  match s with
  | EmptyString => false
  | String _ s' => contains k s'
  end.

(** [max(l, default=d)] *)
Definition max_default (d : Z) (l : list Z) : Z :=
  match l with
  | [] => d
  | x :: l' => fold_left Z.max l' x
  end.

End Py.

(** ** Exceptions *)

Inductive exn : Type :=
| TypeError    (* a missing or an unexpected keyword argument *)
| ValueError   (* [list.index] of an absent element *)
| DynamicType. (* a record value that is not of the field's annotated type:
                  Python would build the object, the typed embedding stops *)

Inductive outcome (A : Type) : Type :=
| Returns (a : A)
| Raises (e : exn).
Arguments Returns {A} a.
Arguments Raises {A} e.

#[global] Instance outcome_ret : MRet outcome := @Returns.
#[global] Instance outcome_bind : MBind outcome := fun A B f m =>
  match m with
  | Returns a => f a
  | Raises e => Raises e
  end.

Fixpoint traverse {A B : Type} (f : A → outcome B) (l : list A) : outcome (list B) :=
  match l with
  | [] => Returns []
  | x :: l' => y ← f x; ys ← traverse f l'; Returns (y :: ys)
  end.

(** ** Task Model *)

Record Task : Type := mkTask {
  id : Z;
  title : string;
  description : string;
  priority : string;
  tags : list string;
  due_date : option string;
  completed : bool;
  created_at : string
}.

(** The values a task record holds. *)
Inductive value : Type :=
| VNone
| VBool (b : bool)
| VInt (z : Z)
| VStr (s : string)
| VList (l : list string).

(** [Task.__init__]; [now] is
    [datetime.now().strftime("%Y-%m-%d %H:%M:%S")] at the call. *)
Definition Task_init (now : string) (id : Z) (title description priority : string)
    (tags : option (list string)) (due_date : option string) (completed : bool)
    (created_at : option string) : Task :=
  {| id := id;
     title := title;
     description := description;
     priority := priority;
     tags := match tags with Some (x :: l) => x :: l | _ => [] end;
     due_date := due_date;
     completed := completed;
     created_at := match created_at with
                   | Some s => if Py.truthy s then s else now
                   | None => now
                   end |}.

Definition opt_value (o : option string) : value :=
  match o with Some s => VStr s | None => VNone end.

(** [Task.to_dict] *)
Definition to_dict (t : Task) : gmap string value :=
  <["id" := VInt (id t)]>
  (<["title" := VStr (title t)]>
  (<["description" := VStr (description t)]>
  (<["priority" := VStr (priority t)]>
  (<["tags" := VList (tags t)]>
  (<["due_date" := opt_value (due_date t)]>
  (<["completed" := VBool (completed t)]>
  (<["created_at" := VStr (created_at t)]> ∅))))))).

(** The keyword parameters of [Task.__init__]. *)
Definition parameters : list string :=
  ["id"; "title"; "description"; "priority"; "tags"; "due_date";
   "completed"; "created_at"].

Definition as_int (v : value) : outcome Z :=
  match v with VInt z => Returns z | _ => Raises DynamicType end.
Definition as_str (v : value) : outcome string :=
  match v with VStr s => Returns s | _ => Raises DynamicType end.
Definition as_bool (v : value) : outcome bool :=
  match v with VBool b => Returns b | _ => Raises DynamicType end.
Definition as_opt_str (v : value) : outcome (option string) :=
  match v with
  | VStr s => Returns (Some s)
  | VNone => Returns None
  | _ => Raises DynamicType
  end.
Definition as_opt_list (v : value) : outcome (option (list string)) :=
  match v with
  | VList l => Returns (Some l)
  | VNone => Returns None
  | _ => Raises DynamicType
  end.

(** A required argument: absent from the call is a [TypeError]. *)
Definition required {A : Type} (conv : value → outcome A)
    (data : gmap string value) (k : string) : outcome A :=
  match data !! k with
  | Some v => conv v
  | None => Raises TypeError
  end.

(** An argument with a default. *)
Definition optional {A : Type} (conv : value → outcome A) (d : A)
    (data : gmap string value) (k : string) : outcome A :=
  match data !! k with
  | Some v => conv v
  | None => Returns d
  end.

(** [Task.from_dict]: [Task] called with the entries of [data] as keyword
    arguments. *)
Definition from_dict (now : string) (data : gmap string value) : outcome Task :=
  if forallb (λ k, bool_decide (k ∈ parameters)) (map fst (map_to_list data)) then
    i ← required as_int data "id";
    ti ← required as_str data "title";
    de ← optional as_str "" data "description";
    pr ← optional as_str "medium" data "priority";
    tg ← optional as_opt_list None data "tags";
    du ← optional as_opt_str None data "due_date";
    co ← optional as_bool false data "completed";
    cr ← optional as_opt_str None data "created_at";
    Returns (Task_init now i ti de pr tg du co cr)
  else Raises TypeError.

(** ** Todo Manager *)

(** [tasks] is [self.tasks]; [disk] is the content of the file named
    [self.filename]: [None] when the file does not exist, else the JSON
    array of records it holds. *)
Record TodoManager : Type := mkManager {
  tasks : list Task;
  disk : option (list (gmap string value))
}.

(** [TodoManager.load_tasks], as a function of the file content. *)
Definition load_tasks (now : string) (file : option (list (gmap string value)))
    : outcome (list Task) :=
  match file with
  | Some data => traverse (from_dict now) data
  | None => Returns []
  end.

(** [TodoManager.__init__] *)
Definition TodoManager_init (now : string)
    (file : option (list (gmap string value))) : outcome TodoManager :=
  ts ← load_tasks now file; Returns (mkManager ts file).

(** [TodoManager.save_tasks]: the whole collection overwrites the file. *)
Definition save_tasks (m : TodoManager) : TodoManager :=
  mkManager (tasks m) (Some (map to_dict (tasks m))).

(** [TodoManager.generate_id] *)
Definition generate_id (m : TodoManager) : Z :=
  Py.max_default 0 (map id (tasks m)) + 1.

(** The literal [["low", "medium", "high"]]. *)
Definition priorities : list string := ["low"; "medium"; "high"].

(** [TodoManager.add_task]; the five texts are the answers to its prompts. *)
Definition add_task (now : string)
    (title description priority tags due_date : string) (m : TodoManager)
    : TodoManager * list string :=
  let priority := Py.lower priority in
  let priority :=
    if bool_decide (priority ∈ priorities) then priority else "medium" in
  let tags := Py.split_comma (Py.lower tags) in
  let due_date :=
    if bool_decide (Py.strip due_date = "") then None else Some due_date in
  let new_task :=
    Task_init now (generate_id m) title description priority
      (Some (map Py.strip (List.filter (λ t, Py.truthy (Py.strip t)) tags)))
      due_date false None in
  (save_tasks (mkManager (tasks m ++ [new_task]) (disk m)),
   ["Task added successfully!"]).

(** [TodoManager.delete_task] *)
Definition delete_task (task_id : Z) (m : TodoManager)
    : TodoManager * list string :=
  (save_tasks
     (mkManager (List.filter (λ task, negb (id task =? task_id)) (tasks m))
                (disk m)),
   ["Task deleted."]).

(** [TodoManager.find_task] *)
Definition find_task (task_id : Z) (m : TodoManager) : option Task :=
  List.find (λ task, id task =? task_id) (tasks m).

(** Assignment to the attributes of the object [find_task] returned: the
    first task of the list with that id is the one that changes. *)
Fixpoint modify_first (task_id : Z) (f : Task → Task) (l : list Task)
    : list Task :=
  match l with
  | [] => []
  | task :: l' =>
      if id task =? task_id then f task :: l'
      else task :: modify_first task_id f l'
  end.

(** The five conditional assignments of [update_task]. *)
Definition update_fields (title' description' priority' tags' due_date' : string)
    (task : Task) : Task :=
  let priority' := Py.lower priority' in
  {| id := id task;
     title := if Py.truthy title' then title' else title task;
     description :=
       if Py.truthy description' then description' else description task;
     priority :=
       if bool_decide (priority' ∈ priorities) then priority'
       else priority task;
     tags :=
       if Py.truthy (Py.strip tags')
       then map Py.strip (Py.split_comma tags') else tags task;
     due_date :=
       if Py.truthy (Py.strip due_date') then Some due_date'
       else due_date task;
     completed := completed task;
     created_at := created_at task |}.

(** [TodoManager.update_task] *)
Definition update_task (task_id : Z)
    (title' description' priority' tags' due_date' : string) (m : TodoManager)
    : TodoManager * list string :=
  match find_task task_id m with
  | None => (m, ["Task not found."])
  | Some _ =>
      (save_tasks
         (mkManager
            (modify_first task_id
               (update_fields title' description' priority' tags' due_date')
               (tasks m))
            (disk m)),
       ["Leave blank to keep current value."; "Task updated."])
  end.

Definition flip_completed (task : Task) : Task :=
  {| id := id task; title := title task; description := description task;
     priority := priority task; tags := tags task; due_date := due_date task;
     completed := negb (completed task); created_at := created_at task |}.

(** [TodoManager.toggle_complete] *)
Definition toggle_complete (task_id : Z) (m : TodoManager)
    : TodoManager * list string :=
  match find_task task_id m with
  | None => (m, ["Task not found."])
  | Some _ =>
      (save_tasks
         (mkManager (modify_first task_id flip_completed (tasks m)) (disk m)),
       ["Task status changed."])
  end.

(** The list [results] that [search_tasks] builds. *)
Definition search_results (keyword : string) (m : TodoManager) : list Task :=
  let keyword := Py.lower keyword in
  List.filter
    (λ t, Py.contains keyword (Py.lower (title t))
          || Py.contains keyword (Py.lower (description t)))
    (tasks m).

(** [str] of an [int]. *)
Definition str_int (z : Z) : string :=
  DecimalString.NilEmpty.string_of_int (Z.to_int z).


(** *** Sorting

    [list.sort(key=f)] computes every key first (an exception there leaves
    the list as it was), then sorts stably, comparing keys with [<]. *)
Section list_sort.
Context {A K : Type} (ltb : K → K → bool).

Fixpoint insert_keyed (x : K * A) (l : list (K * A)) : list (K * A) :=
  match l with
  | [] => [x]
  | y :: l' =>
      if ltb (fst y) (fst x) then y :: insert_keyed x l' else x :: y :: l'
  end.

Definition sort_keyed (l : list (K * A)) : list (K * A) :=
  foldr insert_keyed [] l.

Definition decorate (key : A → outcome K) (l : list A)
    : outcome (list (K * A)) :=
  traverse (λ x, k ← key x; Returns (k, x)) l.

Definition list_sort (key : A → outcome K) (l : list A) : outcome (list A) :=
  keyed ← decorate key l;
  Returns (map snd (sort_keyed keyed)).

(** [x] may stand before [y]: the key of [y] is not below that of [x]. *)
Definition in_order (x y : K * A) : Prop := ltb y.1 x.1 = false.
End list_sort.

(** [l.index(x)] *)
Fixpoint index (x : string) (l : list string) : outcome nat :=
  match l with
  | [] => Raises ValueError
  | y :: l' =>
      if bool_decide (y = x) then Returns O
      else i ← index x l'; Returns (S i)
  end.

(** [TodoManager.sort_tasks]; [choice] answers its prompt. *)
Definition sort_tasks (choice : string) (m : TodoManager)
    : outcome (TodoManager * list string) :=
  let sorted :=
    if bool_decide (choice = "1") then
      Some (list_sort Nat.ltb (λ x, index (priority x) priorities) (tasks m))
    else if bool_decide (choice = "2") then
      Some (list_sort String.ltb (λ x, Returns (Py.lower (title x))) (tasks m))
    else if bool_decide (choice = "3") then
      Some (list_sort String.ltb (λ x, Returns (created_at x)) (tasks m))
    else None in
  match sorted with
  | Some result =>
      ts ← result;
      Returns (save_tasks (mkManager ts (disk m)), ["Tasks sorted."])
  | None => Returns (m, ["Invalid choice."])
  end.

(** ** Vocabulary of the properties *)

(** A text is lowercase when [lower] leaves it as it is. *)
Definition islower (s : string) : Prop := Py.lower s = s.

(** The place of a priority in the order low < medium < high; 3 for any
    other text. *)
Definition rank (p : string) : nat :=
  if bool_decide (p = "low") then 0
  else if bool_decide (p = "medium") then 1
  else if bool_decide (p = "high") then 2
  else 3.

(** Every task of the store has one of the three priorities. *)
Definition valid_priorities (m : TodoManager) : Prop :=
  ∀ t, In t (tasks m) → In (priority t) priorities.

(** A record whose priority, when it has one, is one of the three. *)
Definition record_priority_ok (r : gmap string value) : Prop :=
  match r !! "priority" with
  | Some v => ∃ p, v = VStr p ∧ In p priorities
  | None => True
  end.



(** *** Filtering *)

(** The list [filtered] that [filter_tasks] builds: [choice] answers its
    menu and [p] the priority prompt, which only the choice "3" shows;
    [None] when the choice is none of the three. *)
Definition filter_results (choice p : string) (m : TodoManager)
    : option (list Task) :=
  if bool_decide (choice = "1") then
    Some (List.filter (λ t, completed t) (tasks m))
  else if bool_decide (choice = "2") then
    Some (List.filter (λ t, negb (completed t)) (tasks m))
  else if bool_decide (choice = "3") then
    Some (List.filter (λ t, bool_decide (priority t = p)) (tasks m))
  else None.

(** [TodoManager.filter_tasks]: what is printed. *)
Definition filter_tasks (choice p : string) (m : TodoManager) : list string :=
  match filter_results choice p m with
  | Some filtered =>
      map (λ t, "- " +:+ str_int (id t) +:+ " | " +:+ title t
                +:+ " | " +:+ priority t) filtered
  | None => ["Invalid choice."]
  end.

(** ** Console Menu *)

(** How a session stops: by the option "9", or by an exception, which
    [main] does not catch: [input()] at the end of the input, or the error
    of an operation. *)
Inductive ending : Type :=
| Goodbye
| EOFError
| Uncaught (e : exn).

(** What one turn of the loop comes to: the lines still to read, the
    number of tasks built so far and the manager, or the end. *)
Inductive turn : Type :=
| Continue (stdin : list string) (ticks : nat) (m : TodoManager)
| Stop (e : ending) (m : TodoManager).

Section console.
(** [int s] is the builtin [int] at the typed line [s], [None] for its
    [ValueError]; [clock n] is what the clock reads when the session
    builds its task number [n]. *)
Variable int : string → option Z.
Variable clock : nat → string.

(** One turn of the [while True] loop of [main]: [stdin] holds the lines
    typed from here on, each [input(...)] takes the first. The printed
    text is not followed; the store of the manager and its file are. *)
Definition menu_turn (stdin : list string) (ticks : nat) (m : TodoManager)
    : turn :=
  match stdin with
  | [] => Stop EOFError m
  | choice :: stdin =>
      if bool_decide (choice = "1") then
        match stdin with
        | ti :: de :: pr :: tg :: du :: stdin =>
            Continue stdin (S ticks)
              (add_task (clock ticks) ti de pr tg du m).1
        | _ => Stop EOFError m
        end
      else if bool_decide (choice = "2") then
        match stdin with
        | s :: stdin =>
            match int s with
            | Some task_id => Continue stdin ticks (delete_task task_id m).1
            | None => Stop (Uncaught ValueError) m
            end
        | [] => Stop EOFError m
        end
      else if bool_decide (choice = "3") then
        match stdin with
        | s :: stdin =>
            match int s with
            | Some task_id =>
                match find_task task_id m with
                | None => Continue stdin ticks m
                | Some _ =>
                    match stdin with
                    | ti :: de :: pr :: tg :: du :: stdin =>
                        Continue stdin ticks
                          (update_task task_id ti de pr tg du m).1
                    | _ => Stop EOFError m
                    end
                end
            | None => Stop (Uncaught ValueError) m
            end
        | [] => Stop EOFError m
        end
      else if bool_decide (choice = "4") then Continue stdin ticks m
      else if bool_decide (choice = "5") then
        match stdin with
        | s :: stdin =>
            match int s with
            | Some task_id => Continue stdin ticks (toggle_complete task_id m).1
            | None => Stop (Uncaught ValueError) m
            end
        | [] => Stop EOFError m
        end
      else if bool_decide (choice = "6") then
        match stdin with
        | _ :: stdin => Continue stdin ticks m
        | [] => Stop EOFError m
        end
      else if bool_decide (choice = "7") then
        match stdin with
        | c :: stdin =>
            if bool_decide (c = "3") then
              match stdin with
              | _ :: stdin => Continue stdin ticks m
              | [] => Stop EOFError m
              end
            else Continue stdin ticks m
        | [] => Stop EOFError m
        end
      else if bool_decide (choice = "8") then
        match stdin with
        | c :: stdin =>
            match sort_tasks c m with
            | Returns (m', _) => Continue stdin ticks m'
            | Raises e => Stop (Uncaught e) m
            end
        | [] => Stop EOFError m
        end
      else if bool_decide (choice = "9") then Stop Goodbye m
      else Continue stdin ticks m
  end.

(** The loop, for at most [fuel] turns. *)
Fixpoint menu_loop (fuel : nat) (stdin : list string) (ticks : nat)
    (m : TodoManager) : option (ending * TodoManager) :=
  match fuel with
  | O => None
  | S fuel =>
      match menu_turn stdin ticks m with
      | Continue stdin' ticks' m' => menu_loop fuel stdin' ticks' m'
      | Stop e m' => Some (e, m')
      end
  end.

(** The loop of [main] on the manager [m] with the lines [stdin] typed:
    how it stops and the manager it stops with. Every turn reads a line,
    so one turn more than there are lines is enough. *)
Definition session (stdin : list string) (m : TodoManager)
    : option (ending * TodoManager) :=
  menu_loop (S (length stdin)) stdin 0 m.
End console.

(** ** Further vocabulary *)

(** No two tasks of the store share an id. *)
Definition unique_ids (m : TodoManager) : Prop := NoDup (map id (tasks m)).

(** Every task of the store carries a creation time. *)
Definition stamped (m : TodoManager) : Prop :=
  Forall (λ t, created_at t ≠ "") (tasks m).

(** The file holds the collection as it is in memory. *)
Definition saved (m : TodoManager) : Prop :=
  disk m = Some (map to_dict (tasks m)).

(** ** Text beyond Latin-1

    [search_tasks] is the operation whose answer depends on [str.lower] at
    every character that can be typed, so its test is embedded a second
    time over a wider alphabet: the code points 0..255 and five Greek
    letters, among them the capital sigma, the one character that
    [str.lower] lowers by context. *)

Module Wide.

Inductive char : Type :=
| Latin1 (c : ascii)  (* a code point 0..255 *)
| Alpha               (* U+0391, capital alpha *)
| Sigma               (* U+03A3, capital sigma *)
| alpha               (* U+03B1, small alpha *)
| final_sigma         (* U+03C2, small final sigma *)
| sigma.              (* U+03C3, small sigma *)

#[global] Instance char_eq_dec : EqDecision char.
Proof. solve_decision. Defined.

(** The Unicode property Cased. *)
Definition cased (c : char) : bool :=
  match c with
  | Latin1 a =>
      let n := Py.code a in
      ((65 <=? n) && (n <=? 90) || (97 <=? n) && (n <=? 122)
       || (n =? 170) || (n =? 181) || (n =? 186)
       || (192 <=? n) && (n <=? 214) || (216 <=? n) && (n <=? 246)
       || (248 <=? n) && (n <=? 255))%N
  | _ => true
  end.

(** The Unicode property Case_Ignorable. *)
Definition case_ignorable (c : char) : bool :=
  match c with
  | Latin1 a =>
      let n := Py.code a in
      ((n =? 39) || (n =? 46) || (n =? 58) || (n =? 94) || (n =? 96)
       || (n =? 168) || (n =? 173) || (n =? 175) || (n =? 180)
       || (n =? 183) || (n =? 184))%N
  | _ => false
  end.

(** Whether the first character that is not case-ignorable is cased. *)
Fixpoint cased_next (s : list char) : bool :=
  match s with
  | [] => false
  | c :: s' => if case_ignorable c then cased_next s' else cased c
  end.

(** [str.lower] from the left: [before] holds the characters already
    passed, the nearest first. A capital sigma becomes the final sigma
    when a cased character stands before it and none after it,
    case-ignorable characters apart. *)
Fixpoint lower_from (before s : list char) : list char :=
  match s with
  | [] => []
  | c :: s' =>
      match c with
      | Latin1 a => Latin1 (Py.lower_char a)
      | Alpha => alpha
      | Sigma =>
          if cased_next before && negb (cased_next s') then final_sigma
          else sigma
      | alpha | final_sigma | sigma => c
      end :: lower_from (c :: before) s'
  end.

(** [s.lower()] *)
Definition lower (s : list char) : list char := lower_from [] s.

(** [s.startswith(k)] *)
Fixpoint startswith (k s : list char) : bool :=
  match k, s with
  | [], _ => true
  | a :: k', b :: s' => bool_decide (a = b) && startswith k' s'
  | _ :: _, [] => false
  end.

(** [k in s] *)
Fixpoint contains (k s : list char) : bool :=
  startswith k s ||
  match s with
  | [] => false
  | _ :: s' => contains k s'
  end.

(** The two fields of a task that [search_tasks] tests. *)
Record Task : Type := mkTask {
  title : list char;
  description : list char
}.

(** The list [results] that [search_tasks] builds. *)
Definition search_results (keyword : list char) (tasks : list Task)
    : list Task :=
  let keyword := lower keyword in
  List.filter
    (λ t, contains keyword (lower (title t))
          || contains keyword (lower (description t)))
    tasks.

(** Latin-1 text as wide text. *)
Fixpoint of_string (s : string) : list char :=
  match s with
  | EmptyString => []
  | String c s' => Latin1 c :: of_string s'
  end.

End Wide.

(** The task as the wide search sees it. *)
Definition wide_task (t : Task) : Wide.Task :=
  Wide.mkTask (Wide.of_string (title t)) (Wide.of_string (description t)).

(** * Properties *)

(** ** Serialization *)

Lemma to_dict_keys (t : Task) :
  forallb (λ k, bool_decide (k ∈ parameters)) (map fst (map_to_list (to_dict t)))
  = true.
Proof. destruct t. vm_compute. reflexivity. Qed.

Lemma Task_init_created_at now i ti de pr tg du co cr :
  now ≠ "" → created_at (Task_init now i ti de pr tg du co cr) ≠ "".
Proof.
  intros Hnow. simpl. destruct cr as [[|c s]|]; simpl; congruence.
Qed.

Lemma from_dict_inverts_to_dict (now : string) (t : Task) :
  created_at t ≠ "" → from_dict now (to_dict t) = Returns t.
Proof.
  intros Hcr. unfold from_dict. rewrite to_dict_keys.
  destruct t as [i ti de pr tg du co cr]. simpl in Hcr.
  destruct cr as [|c cr]; [congruence|].
  destruct tg, du; reflexivity.
Qed.

(** Loading what [save_tasks] wrote gives the collection back. *)
Lemma load_saved (now : string) (l : list Task) :
  Forall (λ t, created_at t ≠ "") l →
  load_tasks now (Some (map to_dict l)) = Returns l.
Proof.
  simpl. induction 1 as [|t l Ht Hl IH]; simpl; [reflexivity|].
  rewrite from_dict_inverts_to_dict by exact Ht. simpl. now rewrite IH.
Qed.

(** C1. Round trip: for every task whose [created_at] is not the empty
    text (a timestamp never is, and [Task.__init__] never stores an empty
    one), [Task.from_dict(t.to_dict())] returns a task equal to [t] on all
    eight fields, [id] and [created_at] included, whatever the clock reads
    at the time of the call. *)
Theorem from_dict_to_dict (now : string) (t : Task) :
  created_at t ≠ "" → from_dict now (to_dict t) = Returns t.
Proof. apply from_dict_inverts_to_dict. Qed.

Lemma from_dict_to_dict_witness :
  let t := mkTask 7 "Buy milk" "" "high" ["home"; "shop"] (Some "2024-06-01")
             true "2024-01-01 09:30:00" in
  created_at t ≠ "" ∧ from_dict "2024-05-05 10:00:00" (to_dict t) = Returns t.
Proof.
  intros t. split; [discriminate|].
  apply (from_dict_to_dict "2024-05-05 10:00:00" t). discriminate.
Defined.

(** The side condition cannot be dropped: an empty [created_at] is
    replaced by the clock. *)
Example from_dict_empty_created_at :
  from_dict "2024-05-05 10:00:00" (to_dict (mkTask 1 "a" "" "low" [] None false ""))
  = Returns (mkTask 1 "a" "" "low" [] None false "2024-05-05 10:00:00").
Proof. reflexivity. Qed.

(** ** Identifiers *)

Lemma fold_max_ge (l : list Z) (x : Z) :
  x ≤ fold_left Z.max l x ∧ Forall (λ y, y ≤ fold_left Z.max l x) l.
Proof.
  revert x. induction l as [|y l IH]; intros x; simpl.
  - split; [lia | constructor].
  - destruct (IH (Z.max x y)) as [H1 H2]. split; [lia|].
    constructor; [lia | exact H2].
Qed.

Lemma fold_max_in (l : list Z) (x : Z) : In (fold_left Z.max l x) (x :: l).
Proof.
  revert x. induction l as [|y l IH]; intros x; simpl.
  - now left.
  - destruct (IH (Z.max x y)) as [H | H].
    + destruct (Z.max_spec x y) as [[_ E] | [_ E]]; rewrite E in *; auto.
    + auto.
Qed.

(** [max_default] is the greatest element of a list that has one. *)
Lemma max_default_spec (d : Z) (l : list Z) :
  l ≠ [] → In (Py.max_default d l) l ∧ Forall (λ y, y ≤ Py.max_default d l) l.
Proof.
  destruct l as [|x l]; [congruence|]. intros _. simpl. split.
  - apply fold_max_in.
  - destruct (fold_max_ge l x). now constructor.
Qed.

Lemma delete_task_ids (task_id : Z) (m : TodoManager) :
  map id (tasks (delete_task task_id m).1)
  = List.filter (λ i, negb (i =? task_id)) (map id (tasks m)).
Proof.
  simpl. induction (tasks m) as [|t l IH]; simpl; [reflexivity|].
  destruct (id t =? task_id); simpl; now rewrite IH.
Qed.

(** C3. [generate_id] returns 1 on an empty collection and one more than
    the greatest id of a non-empty one; so when the ids in the store are
    1, 2 and 3 (in any order) and 3 is deleted, the next id is 3 again, as
    it is after three [add_task] on an empty store and [delete_task 3]. *)
Theorem generate_id_spec :
  (∀ m, tasks m = [] → generate_id m = 1) ∧
  (∀ m, tasks m ≠ [] →
     ∃ t, In t (tasks m) ∧ (∀ u, In u (tasks m) → id u ≤ id t)
          ∧ generate_id m = 1 + id t) ∧
  (∀ m, Permutation (map id (tasks m)) [1; 2; 3] →
     generate_id (delete_task 3 m).1 = 3) ∧
  (∀ now a1 b1 c1 d1 e1 a2 b2 c2 d2 e2 a3 b3 c3 d3 e3 file,
     let m1 := (add_task now a1 b1 c1 d1 e1 (mkManager [] file)).1 in
     let m2 := (add_task now a2 b2 c2 d2 e2 m1).1 in
     let m3 := (add_task now a3 b3 c3 d3 e3 m2).1 in
     map id (tasks m3) = [1; 2; 3] ∧ generate_id (delete_task 3 m3).1 = 3).
Proof.
  assert (Hmax : ∀ m, tasks m ≠ [] →
     ∃ t, In t (tasks m) ∧ (∀ u, In u (tasks m) → id u ≤ id t)
          ∧ generate_id m = 1 + id t).
  { intros m Hne. unfold generate_id.
    destruct (max_default_spec 0 (map id (tasks m))) as [Hin Hge].
    { destruct (tasks m); [congruence | discriminate]. }
    apply in_map_iff in Hin as (t & Ht & Hin). exists t.
    split; [exact Hin|]. split; [|lia].
    intros u Hu. rewrite Ht. rewrite Forall_forall in Hge.
    apply Hge. apply list_elem_of_In. now apply in_map. }
  split; [|split; [exact Hmax|split]].
  - intros m E. unfold generate_id. now rewrite E.
  - intros m Hperm.
    assert (Hids : Permutation (map id (tasks (delete_task 3 m).1)) [1; 2]).
    { rewrite delete_task_ids.
      change [1; 2] with (List.filter (λ i, negb (i =? 3)) [1; 2; 3]).
      clear Hmax. induction Hperm; simpl; try reflexivity.
      - destruct (x =? 3); simpl; [assumption | now constructor].
      - destruct (x =? 3), (y =? 3); simpl; try reflexivity. constructor.
      - etransitivity; eassumption. }
    destruct (Hmax (delete_task 3 m).1) as (t & Hin & Hge & ->).
    { intros E. rewrite E in Hids. now apply Permutation_nil in Hids. }
    assert (H2 : In 2 (map id (tasks (delete_task 3 m).1))).
    { eapply Permutation_in; [symmetry; exact Hids | simpl; auto]. }
    apply in_map_iff in H2 as (u & Hu & Huin). apply Hge in Huin.
    assert (Ht : In (id t) [1; 2]).
    { eapply Permutation_in; [exact Hids | now apply in_map]. }
    simpl in Ht. lia.
  - intros. split; reflexivity.
Qed.

Lemma generate_id_spec_witness :
  let m := mkManager
             [mkTask 2 "b" "" "low" [] None false "2024-01-01 00:00:02";
              mkTask 3 "c" "" "low" [] None false "2024-01-01 00:00:03";
              mkTask 1 "a" "" "low" [] None false "2024-01-01 00:00:01"] None in
  generate_id (mkManager [] None) = 1 ∧ generate_id m = 4
  ∧ generate_id (delete_task 3 m).1 = 3.
Proof.
  intros m. destruct generate_id_spec as (H1 & H2 & H3 & _).
  split; [apply H1; reflexivity|]. split.
  - destruct (H2 m) as (t & Hin & Hge & E); [discriminate|].
    rewrite E. assert (Hle : id t ≤ 3 ∧ 3 ≤ id t); [|lia]. split.
    + simpl in Hin. destruct Hin as [<-|[<-|[<-|[]]]]; simpl; lia.
    + apply (Hge (mkTask 3 "c" "" "low" [] None false "2024-01-01 00:00:03")).
      simpl. auto.
  - apply H3. simpl. apply perm_trans with [2; 1; 3]; repeat constructor.
Defined.

(** ** Lookup and in-place change *)

Lemma find_task_In (task_id : Z) (m : TodoManager) (t : Task) :
  find_task task_id m = Some t → In t (tasks m) ∧ id t = task_id.
Proof.
  unfold find_task. intros H. apply find_some in H as [Hin Hid].
  split; [exact Hin | lia].
Qed.

Lemma find_task_None (task_id : Z) (m : TodoManager) :
  find_task task_id m = None ↔ ∀ t, In t (tasks m) → id t ≠ task_id.
Proof.
  unfold find_task. split.
  - intros H t Hin E. apply (find_none _ _ H) in Hin. lia.
  - intros H. induction (tasks m) as [|t l IH]; simpl; [reflexivity|].
    destruct (Z.eqb_spec (id t) task_id) as [E|_].
    + exfalso. apply (H t); simpl; auto.
    + apply IH. intros u Hu. apply H. simpl. auto.
Qed.

Lemma find_modify_first (task_id : Z) (f : Task → Task) (l : list Task) (t : Task) :
  (∀ u, id (f u) = id u) →
  List.find (λ task, id task =? task_id) l = Some t →
  List.find (λ task, id task =? task_id) (modify_first task_id f l) = Some (f t).
Proof.
  intros Hid. induction l as [|u l IH]; simpl; [discriminate|].
  destruct (id u =? task_id) eqn:E; simpl.
  - intros [= ->]. now rewrite Hid, E.
  - rewrite E. exact IH.
Qed.

Lemma modify_first_id (task_id : Z) (f : Task → Task) (l : list Task) :
  (∀ u, In u l → id u = task_id → f u = u) → modify_first task_id f l = l.
Proof.
  induction l as [|u l IH]; simpl; intros H; [reflexivity|].
  destruct (Z.eqb_spec (id u) task_id) as [E|_].
  - rewrite H; auto.
  - f_equal. apply IH. intros v Hv. apply H. auto.
Qed.

(** The elements of [modify_first task_id f l] are those of [l], one of
    them possibly changed by [f]. *)
Lemma In_modify_first (task_id : Z) (f : Task → Task) (l : list Task) (u : Task) :
  In u (modify_first task_id f l) → In u l ∨ ∃ v, In v l ∧ u = f v.
Proof.
  induction l as [|v l IH]; simpl; [tauto|].
  destruct (id v =? task_id); simpl.
  - intros [<-|H]; [right; exists v; auto | auto].
  - intros [<-|H]; [auto|]. destruct (IH H) as [?|(w & ? & ?)]; [auto|].
    right. exists w. auto.
Qed.

(** What [update_task] does to a store that holds the id. *)
Lemma update_task_found (task_id : Z) (ti de pr tg du : string)
    (m : TodoManager) (t : Task) :
  find_task task_id m = Some t →
  let m' := (update_task task_id ti de pr tg du m).1 in
  find_task task_id m' = Some (update_fields ti de pr tg du t)
  ∧ disk m' = Some (map to_dict (tasks m')).
Proof.
  intros Hfind. unfold update_task. rewrite Hfind. simpl. split; [|reflexivity].
  unfold find_task. simpl. now apply find_modify_first.
Qed.

(** ** Blank inputs of [update_task] *)

Lemma truthy_true (s : string) : Py.truthy s = true ↔ s ≠ "".
Proof. destruct s; simpl; split; congruence. Qed.

Lemma strip_blank_head (c : ascii) (s : string) :
  Py.strip (String c s) = "" → Py.isspace c = true.
Proof.
  unfold Py.strip. simpl. destruct (Py.isspace c) eqn:E; [reflexivity|].
  simpl. rewrite E. destruct (Py.rstrip s); discriminate.
Qed.

Lemma isspace_lower_char (c : ascii) :
  Py.isspace c = true → Py.lower_char c = c.
Proof.
  destruct c as [[] [] [] [] [] [] [] []]; vm_compute; congruence.
Qed.

(** A blank answer to the priority prompt names no priority. *)
Lemma blank_not_priority (s : string) :
  Py.strip s = "" → Py.lower s ∉ priorities.
Proof.
  intros Hs Hin. apply list_elem_of_In in Hin. destruct s as [|c s].
  - simpl in Hin. intuition discriminate.
  - apply strip_blank_head in Hs. simpl in Hin.
    rewrite (isspace_lower_char c Hs) in Hin.
    destruct Hin as [Hin|[Hin|[Hin|[]]]];
      injection Hin as <- _; vm_compute in Hs; discriminate.
Qed.

(** With an empty title and description and with blank priority, tags and
    due date, [update_task] changes no field of any task and saves. *)
Lemma update_task_blank (task_id : Z) (pr tg du : string) (m : TodoManager) (t : Task) :
  find_task task_id m = Some t →
  Py.strip pr = "" → Py.strip tg = "" → Py.strip du = "" →
  (update_task task_id "" "" pr tg du m).1 = save_tasks m.
Proof.
  intros Hfind Hpr Htg Hdu. unfold update_task. rewrite Hfind. simpl.
  rewrite modify_first_id; [reflexivity|].
  intros [i ti de p tgs d co cr] _ _. unfold update_fields. simpl.
  rewrite Htg, Hdu. simpl.
  rewrite bool_decide_eq_false_2 by now apply blank_not_priority.
  reflexivity.
Qed.

(** C2. A title or a description made of spaces only is not taken as
    "no change": on the store holding task 1 "Buy milk" / "2 litres",
    [update_task] answered with one space at the title and description
    prompts and nothing at the others stores the space as title and as
    description (the tags and due date prompts, given one space, do keep
    the old values), and saves. *)
Theorem update_task_whitespace_title :
  let t := mkTask 1 "Buy milk" "2 litres" "low" ["home"] (Some "2024-06-01")
             false "2024-01-01 09:30:00" in
  let m := mkManager [t] (Some [to_dict t]) in
  let t' := mkTask 1 " " " " "low" ["home"] (Some "2024-06-01")
              false "2024-01-01 09:30:00" in
  update_task 1 " " " " " " " " " " m
  = (mkManager [t'] (Some [to_dict t']),
     ["Leave blank to keep current value."; "Task updated."]).
Proof. reflexivity. Qed.

(** ** Deletion *)

Lemma filter_all {A : Type} (p : A → bool) (l : list A) :
  (∀ x, In x l → p x = true) → List.filter p l = l.
Proof.
  induction l as [|x l IH]; simpl; intros H; [reflexivity|].
  rewrite H by auto. f_equal. apply IH. auto.
Qed.

(** Deleting an id the store does not hold changes nothing and saves. *)
Lemma delete_absent_noop (task_id : Z) (m : TodoManager) :
  find_task task_id m = None → (delete_task task_id m).1 = save_tasks m.
Proof.
  intros H. rewrite find_task_None in H. unfold delete_task, save_tasks. simpl.
  rewrite filter_all; [reflexivity|].
  intros t Ht. apply H in Ht. apply negb_true_iff. lia.
Qed.

(** Deleting removes every task with the id, keeps the others in order,
    and saves. *)
Lemma delete_task_removes (task_id : Z) (m : TodoManager) :
  let m' := (delete_task task_id m).1 in
  (∀ t, In t (tasks m') ↔ In t (tasks m) ∧ id t ≠ task_id)
  ∧ find_task task_id m' = None
  ∧ disk m' = Some (map to_dict (tasks m')).
Proof.
  simpl. assert (H : ∀ t, In t (List.filter (λ task, negb (id task =? task_id)) (tasks m))
                          ↔ In t (tasks m) ∧ id t ≠ task_id).
  { intros t. rewrite filter_In, negb_true_iff. intuition lia. }
  split; [exact H|]. split; [|reflexivity].
  apply find_task_None. simpl. intros t Ht. now apply H in Ht.
Qed.

(** C4. [delete_task] does not tell whether it found the id: on a store
    holding only task 1, deleting the absent id 99 leaves the collection
    as it is and saves it, and prints "Task deleted.", the very line it
    prints when it deletes task 1. *)
Theorem delete_task_absent_says_deleted :
  let t := mkTask 1 "Buy milk" "" "low" [] None false "2024-01-01 09:30:00" in
  let m := mkManager [t] None in
  find_task 99 m = None
  ∧ delete_task 99 m = (mkManager [t] (Some [to_dict t]), ["Task deleted."])
  ∧ delete_task 1 m = (mkManager [] (Some []), ["Task deleted."]).
Proof. repeat split. Qed.

(** ** Priority on update and on add *)

(** What [add_task] appends. *)
Lemma add_task_appends (now ti de pr tg du : string) (m : TodoManager) :
  let m' := (add_task now ti de pr tg du m).1 in
  ∃ t, tasks m' = (tasks m ++ [t])%list
       ∧ disk m' = Some (map to_dict (tasks m'))
       ∧ id t = generate_id m ∧ title t = ti ∧ description t = de
       ∧ priority t = (if bool_decide (Py.lower pr ∈ priorities)
                       then Py.lower pr else "medium")
       ∧ tags t = map Py.strip
                    (List.filter (λ x, Py.truthy (Py.strip x))
                       (Py.split_comma (Py.lower tg)))
       ∧ completed t = false ∧ created_at t = now.
Proof.
  simpl. eexists. split; [reflexivity|]. split; [reflexivity|].
  simpl. repeat split.
  destruct (map Py.strip _); reflexivity.
Qed.

(** C6 fails as stated: the answer "HIGH" is none of "low", "medium",
    "high", yet [update_task] replaces the priority "low" of task 1 by
    "high". *)
Lemma update_task_uppercase_priority :
  let t := mkTask 1 "Buy milk" "" "low" [] None false "2024-01-01 09:30:00" in
  let m := mkManager [t] None in
  ¬ In "HIGH" priorities
  ∧ ∃ t', find_task 1 (update_task 1 "" "" "HIGH" "" "" m).1 = Some t'
          ∧ priority t' = "high" ∧ priority t' ≠ priority t.
Proof.
  simpl. split.
  - intros [H|[H|[H|[]]]]; discriminate.
  - eexists. split; [reflexivity|]. split; [reflexivity | discriminate].
Qed.

(** C6, amended. [update_task] on an id the store holds replaces the
    priority exactly when the answer, lowercased, is one of "low",
    "medium", "high", and then by the lowercased answer; any other answer
    (such as "urgent") leaves the priority as it was, where [add_task]
    would store "medium". *)
Theorem update_task_priority (task_id : Z) (ti de pr tg du : string)
    (m : TodoManager) (t : Task) :
  find_task task_id m = Some t →
  (∃ t', find_task task_id (update_task task_id ti de pr tg du m).1 = Some t'
         ∧ (Py.lower pr ∈ priorities → priority t' = Py.lower pr)
         ∧ (Py.lower pr ∉ priorities → priority t' = priority t))
  ∧ (∃ t', find_task task_id (update_task task_id ti de "urgent" tg du m).1 = Some t'
           ∧ priority t' = priority t)
  ∧ (∀ now, Py.lower pr ∉ priorities →
       ∃ t', tasks (add_task now ti de pr tg du m).1 = (tasks m ++ [t'])%list
             ∧ priority t' = "medium").
Proof.
  intros Hfind. split; [|split].
  - destruct (update_task_found task_id ti de pr tg du m t Hfind) as [H _].
    eexists. split; [exact H|]. simpl. split; intros Hp.
    + now rewrite bool_decide_eq_true_2.
    + now rewrite bool_decide_eq_false_2.
  - destruct (update_task_found task_id ti de "urgent" tg du m t Hfind) as [H _].
    eexists. split; [exact H | reflexivity].
  - intros now Hp.
    destruct (add_task_appends now ti de pr tg du m) as (t' & H1 & _ & _ & _ & _ & H2 & _).
    exists t'. split; [exact H1|]. rewrite H2. now rewrite bool_decide_eq_false_2.
Qed.

Lemma update_task_priority_witness :
  let t := mkTask 1 "Buy milk" "" "low" [] None false "2024-01-01 09:30:00" in
  let m := mkManager [t] None in
  find_task 1 m = Some t
  ∧ ∃ t', find_task 1 (update_task 1 "" "" "Medium" "" "" m).1 = Some t'
          ∧ priority t' = "medium".
Proof.
  intros t m. split; [reflexivity|].
  destruct (update_task_priority 1 "" "" "Medium" "" "" m t eq_refl)
    as [(t' & Hf & Hin & _) _].
  exists t'. split; [exact Hf|]. apply Hin.
  apply list_elem_of_In. simpl. auto.
Defined.

(** ** Tags on update and on add *)

Lemma rstrip_idem (s : string) : Py.rstrip (Py.rstrip s) = Py.rstrip s.
Proof.
  induction s as [|c s IH]; simpl; [reflexivity|].
  destruct (Py.rstrip s) as [|a r] eqn:E.
  - destruct (Py.isspace c) eqn:Hc; simpl; [reflexivity | now rewrite Hc].
  - change (Py.rstrip (String c (String a r)))
      with (match Py.rstrip (String a r) with
            | EmptyString =>
                if Py.isspace c then EmptyString else String c EmptyString
            | r' => String c r'
            end).
    now rewrite IH.
Qed.

(** [lstrip] leaves nothing or a text that starts with a visible character. *)
Lemma lstrip_head (s : string) :
  Py.lstrip s = "" ∨ ∃ c s', Py.lstrip s = String c s' ∧ Py.isspace c = false.
Proof.
  induction s as [|c s IH]; simpl; [now left|].
  destruct (Py.isspace c) eqn:Hc; [exact IH | right; eauto].
Qed.

Lemma rstrip_keeps_head (c : ascii) (s : string) :
  Py.isspace c = false → ∃ r, Py.rstrip (String c s) = String c r.
Proof.
  intros Hc. simpl. destruct (Py.rstrip s); [rewrite Hc|]; eauto.
Qed.

Lemma strip_idem (s : string) : Py.strip (Py.strip s) = Py.strip s.
Proof.
  unfold Py.strip. destruct (lstrip_head s) as [E|(c & s' & E & Hc)]; rewrite E.
  - reflexivity.
  - destruct (rstrip_keeps_head c s' Hc) as [r Hr]. rewrite Hr.
    change (Py.lstrip (String c r))
      with (if Py.isspace c then Py.lstrip r else String c r).
    rewrite Hc, <- Hr. apply rstrip_idem.
Qed.

Lemma lower_char_idem (c : ascii) :
  Py.lower_char (Py.lower_char c) = Py.lower_char c.
Proof. destruct c as [[] [] [] [] [] [] [] []]; reflexivity. Qed.

Lemma lower_idem (s : string) : Py.lower (Py.lower s) = Py.lower s.
Proof.
  induction s as [|c s IH]; simpl; [reflexivity|].
  now rewrite lower_char_idem, IH.
Qed.

Lemma islower_cons (c : ascii) (s : string) :
  islower (String c s) ↔ Py.lower_char c = c ∧ islower s.
Proof.
  unfold islower. simpl. split.
  - intros [= H1 H2]. auto.
  - intros [-> ->]. reflexivity.
Qed.

Lemma islower_lstrip (s : string) : islower s → islower (Py.lstrip s).
Proof.
  induction s as [|c s IH]; simpl; [trivial|]. intros H.
  destruct (Py.isspace c); [|exact H].
  apply IH. now apply islower_cons in H.
Qed.

Lemma islower_rstrip (s : string) : islower s → islower (Py.rstrip s).
Proof.
  induction s as [|c s IH]; simpl; [trivial|]. intros H.
  apply islower_cons in H as [Hc Hs]. specialize (IH Hs).
  destruct (Py.rstrip s) as [|a r].
  - destruct (Py.isspace c); [reflexivity|]. now apply islower_cons.
  - now apply islower_cons.
Qed.

Lemma islower_strip (s : string) : islower s → islower (Py.strip s).
Proof. intros H. now apply islower_rstrip, islower_lstrip. Qed.

Lemma islower_split_comma (s : string) :
  islower s → Forall islower (Py.split_comma s).
Proof.
  induction s as [|c s IH]; simpl; intros H.
  - repeat constructor.
  - apply islower_cons in H as [Hc Hs]. specialize (IH Hs).
    destruct (Ascii.eqb c ","); [constructor; [reflexivity | exact IH]|].
    destruct (Py.split_comma s) as [|w ws].
    + repeat constructor. now apply islower_cons.
    + inversion IH; subst. constructor; [now apply islower_cons | assumption].
Qed.

Lemma filter_map_comm {A B : Type} (p : B → bool) (f : A → B) (l : list A) :
  List.filter p (map f l) = map f (List.filter (λ x, p (f x)) l).
Proof.
  induction l as [|x l IH]; simpl; [reflexivity|].
  destruct (p (f x)); simpl; now rewrite IH.
Qed.

(** C7. On update of an id the store holds, when the answer to the tags
    prompt is not blank, the task's tags become the comma-separated fields
    of the answer, each trimmed: the old tags play no part, and the fields
    keep their case ("Work, HOME" gives "Work" and "HOME"). On add, on
    any store and for any answer, the answer is split at commas, the
    fields trimmed, the empty ones dropped, and every tag is lowercase. *)
Theorem tags_update_and_add (task_id : Z) (ti de pr tg du : string)
    (m : TodoManager) :
  (∀ t, find_task task_id m = Some t →
     (Py.strip tg ≠ "" →
        ∃ t', find_task task_id (update_task task_id ti de pr tg du m).1 = Some t'
              ∧ tags t' = map Py.strip (Py.split_comma tg)
              ∧ Forall (λ x, Py.strip x = x) (tags t'))
     ∧ (∃ t', find_task task_id
                (update_task task_id ti de pr "Work, HOME" du m).1 = Some t'
              ∧ tags t' = ["Work"; "HOME"]))
  ∧ (∀ now, ∃ t',
       tasks (add_task now ti de pr tg du m).1 = (tasks m ++ [t'])%list
       ∧ tags t' = List.filter Py.truthy
                     (map Py.strip (Py.split_comma (Py.lower tg)))
       ∧ Forall (λ x, x ≠ "" ∧ Py.strip x = x ∧ Py.lower x = x) (tags t')).
Proof.
  split.
  - intros t Hfind. split.
    + intros Htg.
      destruct (update_task_found task_id ti de pr tg du m t Hfind) as [H _].
      eexists. split; [exact H|]. simpl.
      apply truthy_true in Htg. rewrite Htg. split; [reflexivity|].
      apply Forall_forall. intros x Hx. apply list_elem_of_In in Hx.
      apply in_map_iff in Hx as (y & <- & _). apply strip_idem.
    + destruct (update_task_found task_id ti de pr "Work, HOME" du m t Hfind)
        as [H _].
      eexists. split; [exact H | reflexivity].
  - intros now.
    destruct (add_task_appends now ti de pr tg du m)
      as (t' & H1 & _ & _ & _ & _ & _ & H2 & _).
    exists t'. split; [exact H1|]. rewrite H2, <- filter_map_comm.
    split; [reflexivity|].
    apply Forall_forall. intros x Hx. apply list_elem_of_In in Hx.
    apply filter_In in Hx as [Hx Hne]. apply truthy_true in Hne.
    apply in_map_iff in Hx as (y & <- & Hy).
    split; [exact Hne|]. split; [apply strip_idem|].
    apply islower_strip.
    pose proof (islower_split_comma (Py.lower tg) (lower_idem tg)) as Hall.
    rewrite Forall_forall in Hall. apply Hall. now apply list_elem_of_In.
Qed.

Lemma tags_update_and_add_witness :
  let t := mkTask 1 "Buy milk" "" "low" ["old"] None false "2024-01-01 09:30:00" in
  let m := mkManager [t] None in
  find_task 1 m = Some t ∧ Py.strip " Shop ,, FOOD" ≠ ""
  ∧ (∃ t', find_task 1 (update_task 1 "" "" "" " Shop ,, FOOD" "" m).1 = Some t'
           ∧ tags t' = ["Shop"; ""; "FOOD"])
  ∧ (∃ t', tasks (add_task "2024-05-05 10:00:00" "" "" "" " Shop ,, FOOD" "" m).1
           = [t; t']
           ∧ tags t' = ["shop"; "food"])
  ∧ (∃ t', tasks (add_task "2024-05-05 10:00:00" "a" "" "" "  " ""
                    (mkManager [] None)).1 = [t']
           ∧ tags t' = []).
Proof.
  intros t m.
  assert (Hf : find_task 1 m = Some t) by reflexivity.
  assert (Hs : Py.strip " Shop ,, FOOD" ≠ "") by (vm_compute; discriminate).
  split; [exact Hf|]. split; [exact Hs|].
  destruct (tags_update_and_add 1 "" "" "" " Shop ,, FOOD" "" m) as [Hupd Hadd].
  destruct (Hupd t Hf) as [Hnew _]. destruct (Hnew Hs) as (t1 & Hf1 & Ht1 & _).
  split; [|split].
  - exists t1. split; [exact Hf1 | exact Ht1].
  - destruct (Hadd "2024-05-05 10:00:00") as (t2 & Hl & Ht2 & _).
    exists t2. split; [exact Hl | exact Ht2].
  - destruct (tags_update_and_add 1 "a" "" "" "  " "" (mkManager [] None))
      as [_ Hadd0].
    destruct (Hadd0 "2024-05-05 10:00:00") as (t3 & Hl & Ht3 & _).
    exists t3. split; [exact Hl | exact Ht3].
Defined.

(** ** Sorting *)

Lemma bind_Returns {A B : Type} (m : outcome A) (f : A → outcome B) (b : B) :
  (x ← m; f x) = Returns b → ∃ a, m = Returns a ∧ f a = Returns b.
Proof. destruct m as [a|e]; [eauto | discriminate]. Qed.

Section list_sort_facts.
Context {A K : Type} (ltb : K → K → bool).

Lemma decorated_inv (key : A → outcome K) (l : list A) (keyed : list (K * A)) :
  decorate key l = Returns keyed →
  map snd keyed = l ∧ Forall (λ y, key (snd y) = Returns (fst y)) keyed.
Proof.
  unfold decorate. revert keyed. induction l as [|x l IH]; simpl; intros keyed H.
  - injection H as <-. split; constructor.
  - apply bind_Returns in H as ([k x'] & H1 & H2).
    apply bind_Returns in H1 as (k' & Hk & [= <- <-]).
    apply bind_Returns in H2 as (ys & Hys & [= <-]).
    destruct (IH ys Hys) as [E F]. simpl. split; [now rewrite E|].
    now constructor.
Qed.

Lemma decorated_total (kf : A → K) (key : A → outcome K) (l : list A) :
  (∀ x, In x l → key x = Returns (kf x)) →
  decorate key l = Returns (map (λ x, (kf x, x)) l).
Proof.
  unfold decorate. induction l as [|x l IH]; simpl; intros H; [reflexivity|].
  rewrite H by auto. simpl. rewrite IH by auto. reflexivity.
Qed.

(** One failing key fails the whole sort. *)
Lemma decorated_raises (key : A → outcome K) (l : list A) (x : A) (e : exn) :
  In x l → key x = Raises e → (∀ y e', key y = Raises e' → e' = e) →
  decorate key l = Raises e.
Proof.
  unfold decorate. intros Hin Hx Hall.
  induction l as [|y l IH]; simpl; [destruct Hin|].
  destruct (key y) as [k|e'] eqn:Hy; simpl.
  - destruct Hin as [->|Hin]; [congruence|]. now rewrite IH.
  - now rewrite (Hall y e' Hy).
Qed.

Lemma insert_keyed_perm (x : K * A) (l : list (K * A)) :
  Permutation (insert_keyed ltb x l) (x :: l).
Proof.
  induction l as [|y l IH]; simpl; [reflexivity|].
  destruct (ltb y.1 x.1); [|reflexivity].
  rewrite IH. apply perm_swap.
Qed.

Lemma sort_keyed_perm (l : list (K * A)) : Permutation (sort_keyed ltb l) l.
Proof.
  induction l as [|x l IH]; simpl; [reflexivity|].
  rewrite insert_keyed_perm. now constructor.
Qed.

Lemma list_sort_perm (key : A → outcome K) (l l' : list A) :
  list_sort ltb key l = Returns l' → Permutation l' l.
Proof.
  unfold list_sort. intros H.
  apply bind_Returns in H as (keyed & Hk & [= <-]).
  apply decorated_inv in Hk as [<- _].
  apply Permutation_map, sort_keyed_perm.
Qed.

Section order.
Hypothesis ltb_asym : ∀ a b, ltb a b = true → ltb b a = false.
Hypothesis nlt_trans :
  ∀ a b c, ltb b a = false → ltb c b = false → ltb c a = false.

Lemma insert_keyed_sorted (x : K * A) (l : list (K * A)) :
  StronglySorted (in_order ltb) l → StronglySorted (in_order ltb) (insert_keyed ltb x l).
Proof.
  induction l as [|y l IH]; simpl; intros Hs.
  - repeat constructor.
  - apply StronglySorted_inv in Hs as [Hl Hy].
    destruct (ltb y.1 x.1) eqn:E.
    + constructor; [now apply IH|].
      rewrite insert_keyed_perm. constructor; [|exact Hy].
      now apply ltb_asym.
    + constructor; [now constructor|].
      constructor; [exact E|].
      eapply Forall_impl; [exact Hy|].
      intros z Hz. unfold in_order in *. eapply nlt_trans; eassumption.
Qed.

Lemma sort_keyed_sorted (l : list (K * A)) :
  StronglySorted (in_order ltb) (sort_keyed ltb l).
Proof.
  induction l as [|x l IH]; simpl; [constructor|].
  now apply insert_keyed_sorted.
Qed.
End order.

Section stable.
Context `{EqDecision K}.
Hypothesis ltb_irrefl : ∀ a, ltb a a = false.

Lemma insert_keyed_filter (k : K) (x : K * A) (l : list (K * A)) :
  List.filter (λ y, bool_decide (y.1 = k)) (insert_keyed ltb x l)
  = List.filter (λ y, bool_decide (y.1 = k)) (x :: l).
Proof.
  induction l as [|y l IH]; [reflexivity|].
  cbn [insert_keyed]. destruct (ltb y.1 x.1) eqn:E; [|reflexivity].
  cbn [List.filter] in *. rewrite IH.
  destruct (decide (y.1 = k)) as [Hy|Hy], (decide (x.1 = k)) as [Hx|Hx];
    rewrite ?(bool_decide_eq_true_2 _ Hy), ?(bool_decide_eq_false_2 _ Hy),
            ?(bool_decide_eq_true_2 _ Hx), ?(bool_decide_eq_false_2 _ Hx);
    try reflexivity.
  rewrite Hy, <- Hx, ltb_irrefl in E. discriminate.
Qed.

(** The sort is stable: elements of equal key keep their order. *)
Lemma sort_keyed_stable (k : K) (l : list (K * A)) :
  List.filter (λ y, bool_decide (y.1 = k)) (sort_keyed ltb l)
  = List.filter (λ y, bool_decide (y.1 = k)) l.
Proof.
  induction l as [|x l IH]; [reflexivity|].
  cbn [sort_keyed foldr]. rewrite insert_keyed_filter.
  cbn [List.filter]. fold (sort_keyed ltb l). now rewrite IH.
Qed.
End stable.

(** The sort with a key that never fails: a permutation, in key order,
    and stable. *)
Section total_key.
Context `{EqDecision K}.
Hypothesis ltb_asym : ∀ a b, ltb a b = true → ltb b a = false.
Hypothesis nlt_trans :
  ∀ a b c, ltb b a = false → ltb c b = false → ltb c a = false.
Variable kf : A → K.

Lemma sorted_map_snd (s : list (K * A)) :
  StronglySorted (in_order ltb) s → Forall (λ y, y.1 = kf y.2) s →
  StronglySorted (λ a b, ltb (kf b) (kf a) = false) (map snd s).
Proof.
  induction 1 as [|y s Hs IH Hy]; intros Hk; simpl; [constructor|].
  apply Forall_cons in Hk as [Ey Hk]. constructor; [now apply IH|].
  apply Forall_forall. intros b Hb. apply list_elem_of_In in Hb.
  apply in_map_iff in Hb as (z & <- & Hz).
  rewrite Forall_forall in Hy, Hk.
  apply list_elem_of_In in Hz.
  specialize (Hy z Hz). specialize (Hk z Hz). unfold in_order in Hy.
  now rewrite <- Ey, <- Hk.
Qed.

Lemma list_sort_total (key : A → outcome K) (l : list A) :
  (∀ x, In x l → key x = Returns (kf x)) →
  ∃ l', list_sort ltb key l = Returns l'
        ∧ Permutation l' l
        ∧ StronglySorted (λ a b, ltb (kf b) (kf a) = false) l'
        ∧ ∀ k, List.filter (λ a, bool_decide (kf a = k)) l'
               = List.filter (λ a, bool_decide (kf a = k)) l.
Proof.
  intros Hkey. set (dec := map (λ x, (kf x, x)) l).
  assert (Hret : list_sort ltb key l = Returns (map snd (sort_keyed ltb dec))).
  { unfold list_sort. now rewrite (decorated_total kf key l Hkey). }
  assert (Hinv : Forall (λ y, y.1 = kf y.2) (sort_keyed ltb dec)).
  { rewrite sort_keyed_perm. subst dec. clear.
    induction l; simpl; constructor; auto. }
  exists (map snd (sort_keyed ltb dec)). split; [exact Hret|].
  split; [eapply list_sort_perm; exact Hret|]. split.
  - apply sorted_map_snd; [|exact Hinv].
    now apply sort_keyed_sorted.
  - intros k. rewrite filter_map_comm.
    rewrite (filter_ext_in _ (λ y, bool_decide (y.1 = k))).
    2:{ intros y Hy. rewrite Forall_forall in Hinv.
        apply list_elem_of_In in Hy. now rewrite (Hinv y Hy). }
    rewrite sort_keyed_stable.
    2:{ intros a. destruct (ltb a a) eqn:E; [|reflexivity].
        now rewrite (ltb_asym a a E) in E. }
    subst dec. rewrite (filter_map_comm (λ y, bool_decide (y.1 = k))).
    rewrite map_map. simpl. apply map_id.
Qed.
End total_key.
End list_sort_facts.

(** *** Sorting by priority *)

Lemma index_priorities (p : string) :
  In p priorities → index p priorities = Returns (rank p).
Proof. intros [<-|[<-|[<-|[]]]]; reflexivity. Qed.

Lemma index_priorities_raises (p : string) :
  ¬ In p priorities → index p priorities = Raises ValueError.
Proof.
  intros H. simpl in *.
  rewrite !bool_decide_eq_false_2 by (intros E; apply H; auto).
  reflexivity.
Qed.

Lemma index_raises (x : string) (l : list string) (e : exn) :
  index x l = Raises e → e = ValueError.
Proof.
  induction l as [|y l IH]; simpl; [congruence|].
  destruct (bool_decide (y = x)); [discriminate|].
  destruct (index x l); simpl; [discriminate|]. intros [= <-]. now apply IH.
Qed.

Lemma rank_inj (q p : string) : In q priorities → q = p ↔ rank q = rank p.
Proof.
  intros Hq. split; [now intros ->|].
  unfold rank at 2. destruct Hq as [<-|[<-|[<-|[]]]];
    repeat (case_bool_decide; [subst; try reflexivity; discriminate|]);
    discriminate.
Qed.

Lemma StronglySorted_weaken {A : Type} (R R' : A → A → Prop) (l : list A) :
  (∀ a b, R a b → R' a b) → StronglySorted R l → StronglySorted R' l.
Proof.
  intros HR. induction 1 as [|x l Hs IH Hx]; constructor; [exact IH|].
  eapply Forall_impl; [exact Hx | apply HR].
Qed.

Lemma ltb_asym_nat (a b : nat) : (a <? b)%nat = true → (b <? a)%nat = false.
Proof. rewrite Nat.ltb_lt, Nat.ltb_ge. lia. Qed.

Lemma nlt_trans_nat (a b c : nat) :
  (b <? a)%nat = false → (c <? b)%nat = false → (c <? a)%nat = false.
Proof. rewrite !Nat.ltb_ge. lia. Qed.

(** C8. On a store whose tasks all have one of the three priorities,
    sorting by priority returns, leaves in the collection a permutation of
    the tasks that ascends in the order low < medium < high, keeps the
    tasks of each priority in the order they had, and saves the collection
    in the new order. Tasks of priorities high, low, medium end as low,
    medium, high. *)
Theorem sort_by_priority :
  (∀ m, valid_priorities m →
     ∃ ts, sort_tasks "1" m
           = Returns (mkManager ts (Some (map to_dict ts)), ["Tasks sorted."])
       ∧ Permutation ts (tasks m)
       ∧ StronglySorted
           (λ a b, (rank (priority a) ≤ rank (priority b))%nat) ts
       ∧ ∀ p, List.filter (λ t, bool_decide (priority t = p)) ts
              = List.filter (λ t, bool_decide (priority t = p)) (tasks m))
  ∧ (∀ a b c file,
       priority a = "high" → priority b = "low" → priority c = "medium" →
       sort_tasks "1" (mkManager [a; b; c] file)
       = Returns (mkManager [b; c; a] (Some (map to_dict [b; c; a])),
                  ["Tasks sorted."])).
Proof.
  split.
  - intros m Hvalid.
    destruct (list_sort_total Nat.ltb ltb_asym_nat nlt_trans_nat
                (λ t, rank (priority t))
                (λ x, index (priority x) priorities) (tasks m))
      as (ts & Hret & Hperm & Hsorted & Hstable).
    { intros x Hx. apply index_priorities, Hvalid, Hx. }
    exists ts. split; [|split; [exact Hperm|split]].
    + unfold sort_tasks. change (bool_decide ("1" = "1")) with true.
      cbv beta iota zeta. rewrite Hret. reflexivity.
    + eapply StronglySorted_weaken; [|exact Hsorted].
      intros a b. simpl. rewrite Nat.ltb_ge. trivial.
    + intros p.
      assert (Hext : ∀ l, (∀ t, In t l → In (priority t) priorities) →
                List.filter (λ t, bool_decide (priority t = p)) l
                = List.filter (λ t, bool_decide (rank (priority t) = rank p)) l).
      { intros l Hl. apply filter_ext_in. intros t Ht.
        apply bool_decide_ext, rank_inj, Hl, Ht. }
      rewrite !Hext; [apply Hstable | exact Hvalid |].
      intros t Ht. apply Hvalid. eapply Permutation_in; eassumption.
  - intros a b c file Ha Hb Hc. unfold sort_tasks, list_sort, decorate. simpl.
    rewrite Ha, Hb, Hc. reflexivity.
Qed.

Lemma sort_by_priority_witness :
  let mk := λ i p, mkTask i "t" "" p [] None false "2024-01-01 09:30:00" in
  let m := mkManager [mk 1 "high"; mk 2 "low"; mk 3 "medium"; mk 4 "low"] None in
  valid_priorities m
  ∧ ∃ ts, (sort_tasks "1" m
           = Returns (mkManager ts (Some (map to_dict ts)), ["Tasks sorted."]))
          ∧ List.filter (λ t, bool_decide (priority t = "low")) ts
            = [mk 2 "low"; mk 4 "low"].
Proof.
  intros mk m.
  assert (Hv : valid_priorities m).
  { intros t [<-|[<-|[<-|[<-|[]]]]]; simpl; auto. }
  split; [exact Hv|].
  destruct sort_by_priority as [H _].
  destruct (H m Hv) as (ts & Hret & _ & _ & Hst).
  exists ts. split; [exact Hret|]. rewrite Hst. reflexivity.
Defined.

(** C10. Sorting by priority is partial. Whenever some task of the store
    has a priority other than "low", "medium", "high", the sort raises
    [ValueError] and returns no collection; and such a store is reached
    by loading: a file holding the record of any task, whatever its
    priority text, loads into a store holding that task. *)
Theorem priority_sort_partial :
  (∀ m t, In t (tasks m) → ¬ In (priority t) priorities →
     sort_tasks "1" m = Raises ValueError)
  ∧ (∀ now t, ¬ In (priority t) priorities → created_at t ≠ "" →
       TodoManager_init now (Some [to_dict t])
       = Returns (mkManager [t] (Some [to_dict t]))
       ∧ sort_tasks "1" (mkManager [t] (Some [to_dict t])) = Raises ValueError).
Proof.
  assert (H : ∀ m t, In t (tasks m) → ¬ In (priority t) priorities →
     sort_tasks "1" m = Raises ValueError).
  { intros m t Hin Hp. unfold sort_tasks.
    change (bool_decide ("1" = "1")) with true. cbv beta iota zeta.
    unfold list_sort.
    rewrite (decorated_raises (λ x, index (priority x) priorities)
               (tasks m) t ValueError Hin); [reflexivity| |].
    - now apply index_priorities_raises.
    - intros y e. apply index_raises. }
  split; [exact H|]. intros now t Hp Hcr. split.
  - unfold TodoManager_init.
    change [to_dict t] with (map to_dict [t]).
    rewrite load_saved; [reflexivity|]. now repeat constructor.
  - apply (H _ t); [simpl; auto | exact Hp].
Qed.

Lemma priority_sort_partial_witness :
  let t := mkTask 1 "Buy milk" "" "urgent" [] None false "2024-01-01 09:30:00" in
  ¬ In (priority t) priorities ∧ created_at t ≠ ""
  ∧ TodoManager_init "2024-05-05 10:00:00" (Some [to_dict t])
    = Returns (mkManager [t] (Some [to_dict t]))
  ∧ sort_tasks "1" (mkManager [t] (Some [to_dict t])) = Raises ValueError.
Proof.
  intros t.
  assert (Hp : ¬ In (priority t) priorities).
  { intros [H|[H|[H|[]]]]; discriminate. }
  assert (Hcr : created_at t ≠ "") by discriminate.
  split; [exact Hp|]. split; [exact Hcr|].
  destruct priority_sort_partial as [_ H].
  exact (H "2024-05-05 10:00:00" t Hp Hcr).
Defined.

(** ** The priority invariant *)

Lemma from_dict_priority (now : string) (r : gmap string value) (t : Task) :
  from_dict now r = Returns t → record_priority_ok r → In (priority t) priorities.
Proof.
  unfold from_dict, record_priority_ok. intros H Hok.
  destruct (forallb _ _); [|discriminate].
  apply bind_Returns in H as (i & _ & H).
  apply bind_Returns in H as (ti & _ & H).
  apply bind_Returns in H as (de & _ & H).
  apply bind_Returns in H as (pr & Hpr & H).
  apply bind_Returns in H as (tg & _ & H).
  apply bind_Returns in H as (du & _ & H).
  apply bind_Returns in H as (co & _ & H).
  apply bind_Returns in H as (cr & _ & H).
  injection H as <-. simpl. unfold optional in Hpr.
  destruct (r !! "priority") as [v|].
  - destruct Hok as (p & -> & Hp). simpl in Hpr. now injection Hpr as <-.
  - injection Hpr as <-. simpl. auto.
Qed.

Lemma load_tasks_priority (now : string) (file : list (gmap string value))
    (l : list Task) :
  Forall record_priority_ok file → load_tasks now (Some file) = Returns l →
  ∀ t, In t l → In (priority t) priorities.
Proof.
  simpl. intros Hok. revert l.
  induction Hok as [|r file Hr _ IH]; simpl; intros l H.
  - injection H as <-. intros t [].
  - apply bind_Returns in H as (t0 & Ht0 & H).
    apply bind_Returns in H as (l0 & Hl0 & [= <-]).
    intros t [<-|Ht]; [eapply from_dict_priority; eassumption|].
    eapply IH; eassumption.
Qed.

(** C5 fails as stated: a file holding a record of priority "urgent"
    loads into a store holding a task of priority "urgent". *)
Lemma load_keeps_foreign_priority :
  let t := mkTask 1 "Buy milk" "" "urgent" [] None false "2024-01-01 09:30:00" in
  TodoManager_init "2024-05-05 10:00:00" (Some [to_dict t])
  = Returns (mkManager [t] (Some [to_dict t]))
  ∧ ¬ valid_priorities (mkManager [t] (Some [to_dict t])).
Proof.
  simpl. split; [reflexivity|]. intros H.
  destruct (H _ (or_introl eq_refl)) as [E|[E|[E|[]]]]; discriminate.
Qed.

(** C5, amended. Every task of the store has one of the three priorities
    when the store is built without a backing file, or from a file whose
    records all have one of the three priorities (or none, which reads as
    "medium"); a file written by [save_tasks] from such a store is such a
    file; and [add_task], [update_task], [toggle_complete], [delete_task]
    and [sort_tasks] keep it so. *)
Theorem valid_priorities_invariant :
  (∀ now, ∃ m, TodoManager_init now None = Returns m ∧ valid_priorities m)
  ∧ (∀ now file m, Forall record_priority_ok file →
       TodoManager_init now (Some file) = Returns m → valid_priorities m)
  ∧ (∀ m, valid_priorities m →
       ∃ file, disk (save_tasks m) = Some file ∧ Forall record_priority_ok file)
  ∧ (∀ now ti de pr tg du m, valid_priorities m →
       valid_priorities (add_task now ti de pr tg du m).1)
  ∧ (∀ task_id ti de pr tg du m, valid_priorities m →
       valid_priorities (update_task task_id ti de pr tg du m).1)
  ∧ (∀ task_id m, valid_priorities m →
       valid_priorities (toggle_complete task_id m).1)
  ∧ (∀ task_id m, valid_priorities m →
       valid_priorities (delete_task task_id m).1)
  ∧ (∀ choice m m' out, valid_priorities m →
       sort_tasks choice m = Returns (m', out) → valid_priorities m').
Proof.
  repeat apply conj.
  - intros now. eexists. split; [reflexivity|]. intros t [].
  - intros now file m Hok H. unfold TodoManager_init in H.
    apply bind_Returns in H as (l & Hl & [= <-]).
    exact (load_tasks_priority now file l Hok Hl).
  - intros m Hv. eexists. split; [reflexivity|].
    apply Forall_forall. intros r Hr. apply list_elem_of_In in Hr.
    apply in_map_iff in Hr as (u & <- & Hu).
    unfold record_priority_ok.
    change (to_dict u !! "priority") with (Some (VStr (priority u))).
    eexists. split; [reflexivity|]. exact (Hv _ Hu).
  - intros now ti de pr tg du m Hv t Ht.
    destruct (add_task_appends now ti de pr tg du m)
      as (t' & E & _ & _ & _ & _ & Hp & _).
    rewrite E in Ht. apply in_app_or in Ht as [Ht|[<-|[]]]; [now apply Hv|].
    rewrite Hp. case_bool_decide as Hin; [|simpl; auto].
    now apply list_elem_of_In.
  - intros task_id ti de pr tg du m Hv. unfold update_task.
    destruct (find_task task_id m) as [found|]; [|exact Hv].
    intros t Ht. simpl in Ht.
    apply In_modify_first in Ht as [Ht|(v & Hin & ->)]; [now apply Hv|].
    cbn [priority update_fields].
    case_bool_decide as Hp; [now apply list_elem_of_In | exact (Hv v Hin)].
  - intros task_id m Hv. unfold toggle_complete.
    destruct (find_task task_id m) as [found|]; [|exact Hv].
    intros t Ht. simpl in Ht.
    apply In_modify_first in Ht as [Ht|(v & Hin & ->)];
      [now apply Hv | exact (Hv v Hin)].
  - intros task_id m Hv t Ht. simpl in Ht. apply filter_In in Ht as [Ht _].
    now apply Hv.
  - intros choice m m' out Hv H. unfold sort_tasks in H.
    assert (Hs : ∀ K (ltb : K → K → bool) key,
               (ts ← list_sort ltb key (tasks m);
                Returns (save_tasks (mkManager ts (disk m)), ["Tasks sorted."]))
               = Returns (m', out) → valid_priorities m').
    { intros K ltb key Hr. apply bind_Returns in Hr as (ts & Hts & [= <- _]).
      intros t Ht. simpl in Ht. apply Hv.
      eapply Permutation_in; [eapply list_sort_perm; exact Hts | exact Ht]. }
    repeat case_bool_decide; try (eapply Hs; exact H).
    now injection H as <- _.
Qed.

Lemma valid_priorities_invariant_witness :
  let t := mkTask 1 "Buy milk" "" "low" [] None false "2024-01-01 09:30:00" in
  let m := mkManager [t] None in
  valid_priorities m
  ∧ valid_priorities (update_task 1 "" "" "urgent" "" "" m).1
  ∧ valid_priorities
      (add_task "2024-05-05 10:00:00" "Call" "" "urgent" "" "" m).1.
Proof.
  intros t m.
  assert (Hv : valid_priorities m).
  { intros u [<-|[]]. simpl. auto. }
  destruct valid_priorities_invariant as (_ & _ & _ & Hadd & Hupd & _).
  split; [exact Hv|]. split.
  - exact (Hupd 1 "" "" "urgent" "" "" m Hv).
  - exact (Hadd "2024-05-05 10:00:00" "Call" "" "urgent" "" "" m Hv).
Defined.

(** ** Search *)







Lemma filter_sublist {A : Type} (p : A → bool) (l : list A) :
  sublist (List.filter p l) l.
Proof.
  induction l as [|x l IH]; simpl; [constructor|].
  destruct (p x); now constructor.
Qed.



(** * Further properties *)

(** ** Deserialization and loading *)

Lemma unexpected_key (data : gmap string value) (k : string) (v : value) :
  data !! k = Some v → k ∉ parameters →
  forallb (λ k, bool_decide (k ∈ parameters)) (map fst (map_to_list data)) = false.
Proof.
  intros Hk Hnot. apply not_true_is_false. intros H.
  rewrite forallb_forall in H.
  assert (Hin : In k (map fst (map_to_list data))).
  { apply in_map_iff. exists (k, v). split; [reflexivity|].
    apply list_elem_of_In. now apply elem_of_map_to_list. }
  apply H in Hin. now apply bool_decide_eq_true in Hin.
Qed.

(** [Task.from_dict] raises [TypeError] on a record with a key that is no
    field of a task, on a record without "id", and on a record with an
    integer "id" but without "title". *)
Theorem from_dict_rejects (now : string) (data : gmap string value) :
  (∀ k v, data !! k = Some v → k ∉ parameters →
     from_dict now data = Raises TypeError)
  ∧ (data !! "id" = None → from_dict now data = Raises TypeError)
  ∧ (∀ i, data !! "id" = Some (VInt i) → data !! "title" = None →
       from_dict now data = Raises TypeError).
Proof.
  unfold from_dict. repeat apply conj.
  - intros k v Hk Hnot. now rewrite (unexpected_key data k v Hk Hnot).
  - intros Hid. destruct (forallb _ _); [|reflexivity].
    unfold required. now rewrite Hid.
  - intros i Hid Hti. destruct (forallb _ _); [|reflexivity].
    unfold required. now rewrite Hid, Hti.
Qed.

Lemma from_dict_rejects_witness :
  from_dict "2024-05-05 10:00:00"
    (<["id" := VInt 1]> (<["title" := VStr "a"]> (<["owner" := VStr "me"]> ∅)))
  = Raises TypeError
  ∧ from_dict "2024-05-05 10:00:00" (<["id" := VInt 1]> ∅) = Raises TypeError.
Proof.
  split.
  - destruct (from_dict_rejects "2024-05-05 10:00:00"
        (<["id" := VInt 1]> (<["title" := VStr "a"]> (<["owner" := VStr "me"]> ∅))))
      as [H _].
    apply (H "owner" (VStr "me")); [reflexivity|].
    intros Hin. apply list_elem_of_In in Hin. simpl in Hin.
    intuition discriminate.
  - destruct (from_dict_rejects "2024-05-05 10:00:00" (<["id" := VInt 1]> ∅))
      as (_ & _ & H).
    apply (H 1); reflexivity.
Defined.

(** A record with only "id" and "title" loads with the defaults of
    [Task.__init__]: empty description, priority "medium", no tags, no due
    date, not completed, created at the time of loading; a null "tags" and
    an empty "created_at" are replaced in the same way. *)
Theorem from_dict_defaults (now : string) (i : Z) (ti : string) :
  from_dict now (<["id" := VInt i]> (<["title" := VStr ti]> ∅))
  = Returns (mkTask i ti "" "medium" [] None false now)
  ∧ from_dict now
      (<["id" := VInt i]> (<["title" := VStr ti]>
        (<["tags" := VNone]> (<["created_at" := VStr ""]> ∅))))
    = Returns (mkTask i ti "" "medium" [] None false now).
Proof. split; reflexivity. Qed.

Lemma traverse_Returns {A B : Type} (f : A → outcome B) (l : list A) (l' : list B) :
  traverse f l = Returns l' ↔ Forall2 (λ x y, f x = Returns y) l l'.
Proof.
  revert l'. induction l as [|x l IH]; intros l'; simpl.
  - split.
    + intros [= <-]. constructor.
    + intros H. inversion H. reflexivity.
  - split.
    + intros H. apply bind_Returns in H as (y & Hy & H).
      apply bind_Returns in H as (ys & Hys & [= <-]).
      constructor; [exact Hy | now apply IH].
    + intros H. inversion H as [|? y ? ys Hy Hys]; subst.
      rewrite Hy. simpl. apply IH in Hys. now rewrite Hys.
Qed.

Lemma traverse_Returns_In {A B : Type} (f : A → outcome B) (l : list A)
    (l' : list B) :
  traverse f l = Returns l' → ∀ x, In x l → ∃ y, f x = Returns y.
Proof.
  revert l'. induction l as [|x l IH]; intros l' H z Hz; [destruct Hz|].
  simpl in H. apply bind_Returns in H as (y & Hy & H).
  apply bind_Returns in H as (ys & Hys & _).
  destruct Hz as [<-|Hz]; [eauto | eapply IH; eassumption].
Qed.

(** Loading succeeds exactly when every record of the file deserializes,
    and then gives the tasks in file order, one for each record; a single
    record that fails makes the whole construction fail; without a file
    the store starts empty. *)
Theorem load_tasks_spec (now : string) (file : list (gmap string value)) :
  (∀ l, load_tasks now (Some file) = Returns l
        ↔ Forall2 (λ r t, from_dict now r = Returns t) file l)
  ∧ (∀ r e, In r file → from_dict now r = Raises e →
       ∃ e', TodoManager_init now (Some file) = Raises e')
  ∧ TodoManager_init now None = Returns (mkManager [] None).
Proof.
  split; [|split; [|reflexivity]].
  - intros l. apply traverse_Returns.
  - intros r e Hin Hr. unfold TodoManager_init.
    destruct (load_tasks now (Some file)) as [l|e'] eqn:E; [|eauto].
    exfalso. destruct (traverse_Returns_In _ _ _ E r Hin) as [t Ht].
    congruence.
Qed.

Lemma load_tasks_spec_witness :
  let r := <["id" := VInt 1]> (<["title" := VStr "a"]> ∅) : gmap string value in
  let bad := <["title" := VStr "b"]> ∅ : gmap string value in
  load_tasks "2024-05-05 10:00:00" (Some [r])
  = Returns [mkTask 1 "a" "" "medium" [] None false "2024-05-05 10:00:00"]
  ∧ ∃ e, TodoManager_init "2024-05-05 10:00:00" (Some [r; bad]) = Raises e.
Proof.
  intros r bad. split.
  - destruct (load_tasks_spec "2024-05-05 10:00:00" [r]) as [H _].
    apply H. repeat constructor.
  - destruct (load_tasks_spec "2024-05-05 10:00:00" [r; bad]) as (_ & H & _).
    apply (H bad TypeError); [simpl; auto | reflexivity].
Defined.

(** ** Creation times and reopening *)

Lemma from_dict_stamped (now : string) (r : gmap string value) (t : Task) :
  now ≠ "" → from_dict now r = Returns t → created_at t ≠ "".
Proof.
  unfold from_dict. intros Hnow H.
  destruct (forallb _ _); [|discriminate].
  repeat (apply bind_Returns in H as (? & _ & H)).
  injection H as <-. now apply Task_init_created_at.
Qed.

Lemma In_modify_first_field {B : Type} (g : Task → B) (task_id : Z)
    (f : Task → Task) (l : list Task) :
  (∀ u, g (f u) = g u) → map g (modify_first task_id f l) = map g l.
Proof.
  intros Hg. induction l as [|u l IH]; simpl; [reflexivity|].
  destruct (id u =? task_id); simpl; [now rewrite Hg | now rewrite IH].
Qed.

Lemma stamped_map (l : list Task) :
  Forall (λ t, created_at t ≠ "") l ↔ Forall (λ s, s ≠ "") (map created_at l).
Proof. now rewrite Forall_map. Qed.

Lemma stamped_kept (now : string) :
  now ≠ "" →
  (∀ file m, TodoManager_init now file = Returns m → stamped m)
  ∧ (∀ ti de pr tg du m, stamped m → stamped (add_task now ti de pr tg du m).1)
  ∧ (∀ task_id ti de pr tg du m, stamped m →
       stamped (update_task task_id ti de pr tg du m).1)
  ∧ (∀ task_id m, stamped m → stamped (toggle_complete task_id m).1)
  ∧ (∀ task_id m, stamped m → stamped (delete_task task_id m).1)
  ∧ (∀ choice m m' out, stamped m →
       sort_tasks choice m = Returns (m', out) → stamped m').
Proof.
  intros Hnow. unfold stamped. repeat apply conj.
  - intros file m H. unfold TodoManager_init in H.
    apply bind_Returns in H as (l & Hl & [= <-]). simpl.
    destruct file as [file|]; simpl in Hl; [|injection Hl as <-; constructor].
    apply traverse_Returns in Hl.
    induction Hl as [|r t file l Hr _ IH]; constructor; [|exact IH].
    eapply from_dict_stamped; eassumption.
  - intros ti de pr tg du m Hm.
    destruct (add_task_appends now ti de pr tg du m)
      as (t & -> & _ & _ & _ & _ & _ & _ & _ & Hcr).
    apply Forall_app. split; [exact Hm|]. repeat constructor. now rewrite Hcr.
  - intros task_id ti de pr tg du m Hm. unfold update_task.
    destruct (find_task task_id m); [|exact Hm]. simpl.
    apply stamped_map. rewrite In_modify_first_field by reflexivity.
    now apply stamped_map.
  - intros task_id m Hm. unfold toggle_complete.
    destruct (find_task task_id m); [|exact Hm]. simpl.
    apply stamped_map. rewrite In_modify_first_field by reflexivity.
    now apply stamped_map.
  - intros task_id m Hm. simpl. rewrite Forall_forall in *.
    intros t Ht. apply Hm. apply list_elem_of_In in Ht.
    apply filter_In in Ht as [Ht _]. now apply list_elem_of_In.
  - intros choice m m' out Hm H. unfold sort_tasks in H.
    assert (Hs : ∀ K (ltb : K → K → bool) key,
               (ts ← list_sort ltb key (tasks m);
                Returns (save_tasks (mkManager ts (disk m)), ["Tasks sorted."]))
               = Returns (m', out) →
               Forall (λ t, created_at t ≠ "") (tasks m')).
    { intros K ltb key Hr. apply bind_Returns in Hr as (ts & Hts & [= <- _]).
      simpl. apply list_sort_perm in Hts. now rewrite Hts. }
    repeat case_bool_decide; try (eapply Hs; exact H).
    now injection H as <- _.
Qed.

(** While the clock never reads as the empty text, every task of the
    store carries a creation time: after loading any file, and after
    [add_task], [update_task], [toggle_complete], [delete_task] and
    [sort_tasks] on a store where it was so. *)
Theorem stamped_invariant (now : string) :
  now ≠ "" →
  (∀ file m, TodoManager_init now file = Returns m → stamped m)
  ∧ (∀ ti de pr tg du m, stamped m → stamped (add_task now ti de pr tg du m).1)
  ∧ (∀ task_id ti de pr tg du m, stamped m →
       stamped (update_task task_id ti de pr tg du m).1)
  ∧ (∀ task_id m, stamped m → stamped (toggle_complete task_id m).1)
  ∧ (∀ task_id m, stamped m → stamped (delete_task task_id m).1)
  ∧ (∀ choice m m' out, stamped m →
       sort_tasks choice m = Returns (m', out) → stamped m').
Proof. exact (stamped_kept now). Qed.

Lemma stamped_invariant_witness :
  let now := "2024-05-05 10:00:00" in
  let m := (add_task now "Buy milk" "" "" "" "" (mkManager [] None)).1 in
  now ≠ "" ∧ stamped m ∧ stamped (toggle_complete 1 m).1.
Proof.
  intros now m.
  assert (Hnow : now ≠ "") by discriminate.
  destruct (stamped_invariant now Hnow) as (_ & Hadd & _ & Htog & _).
  assert (Hm : stamped m).
  { apply Hadd. constructor. }
  split; [exact Hnow|]. split; [exact Hm|]. now apply Htog.
Defined.

(** Reopening: a new manager built on the file that [save_tasks] wrote
    from a store whose tasks all carry a creation time holds the same
    tasks in the same order, field for field, whatever the time of
    reopening; so a task added to a fresh store is found again on
    reopening. *)
Theorem reopen_after_save (now : string) (m : TodoManager) :
  stamped m →
  TodoManager_init now (disk (save_tasks m)) = Returns (save_tasks m).
Proof.
  intros Hm. unfold TodoManager_init. simpl disk.
  now rewrite (load_saved now (tasks m) Hm).
Qed.

Lemma reopen_after_save_witness :
  let m := (add_task "2024-05-05 10:00:00" "Buy milk" "" "" "" ""
              (mkManager [] None)).1 in
  stamped m
  ∧ TodoManager_init "2030-01-01 00:00:00" (disk m)
    = Returns (mkManager
                 [mkTask 1 "Buy milk" "" "medium" [] None false
                    "2024-05-05 10:00:00"] (disk m)).
Proof.
  intros m.
  assert (Hm : stamped m) by (repeat constructor; discriminate).
  split; [exact Hm|].
  exact (reopen_after_save "2030-01-01 00:00:00" m Hm).
Defined.

(** ** Identifiers *)

Lemma generate_id_above (m : TodoManager) (t : Task) :
  In t (tasks m) → id t < generate_id m.
Proof.
  intros Ht. unfold generate_id.
  destruct (max_default_spec 0 (map id (tasks m))) as [_ Hge].
  { destruct (tasks m); [destruct Ht | discriminate]. }
  rewrite Forall_forall in Hge.
  assert (id t ≤ Py.max_default 0 (map id (tasks m))); [|lia].
  apply Hge, list_elem_of_In. now apply in_map.
Qed.

Lemma find_app_fresh (p : Task → bool) (l : list Task) (t : Task) :
  (∀ u, In u l → p u = false) → p t = true → List.find p (l ++ [t]) = Some t.
Proof.
  intros Hl Ht. induction l as [|u l IH]; simpl.
  - now rewrite Ht.
  - rewrite (Hl u) by (simpl; auto). apply IH. intros v Hv. apply Hl. simpl. auto.
Qed.

Lemma find_app_other (p : Task → bool) (l : list Task) (t : Task) :
  p t = false → List.find p (l ++ [t]) = List.find p l.
Proof.
  intros Ht. induction l as [|u l IH]; simpl; [now rewrite Ht|].
  destruct (p u); [reflexivity | exact IH].
Qed.

(** The id [add_task] assigns is above every id in the store, so the new
    task is the one [find_task] returns for it; it carries the title and
    description as typed (an empty title is accepted), the due date as
    typed unless blank, is not completed and is stamped with the clock;
    every other id finds what it found before; and the collection grows by
    one and is saved. *)
Theorem add_task_then_find (now ti de pr tg du : string) (m : TodoManager) :
  let m' := (add_task now ti de pr tg du m).1 in
  (∀ t, In t (tasks m) → id t < generate_id m)
  ∧ (∃ t, find_task (generate_id m) m' = Some t
          ∧ id t = generate_id m ∧ title t = ti ∧ description t = de
          ∧ due_date t = (if bool_decide (Py.strip du = "") then None else Some du)
          ∧ completed t = false ∧ created_at t = now)
  ∧ (∀ i, i ≠ generate_id m → find_task i m' = find_task i m)
  ∧ length (tasks m') = S (length (tasks m))
  ∧ saved m'.
Proof.
  intros m'. split; [intros t; apply generate_id_above|].
  split; [|split; [|split]].
  - eexists. split.
    + unfold find_task. simpl. apply find_app_fresh.
      * intros u Hu. apply generate_id_above in Hu. lia.
      * simpl. lia.
    + simpl. repeat split.
  - intros i Hi. unfold find_task. simpl. apply find_app_other. simpl. lia.
  - simpl. rewrite length_app. simpl. lia.
  - reflexivity.
Qed.

Lemma modify_first_ids (task_id : Z) (f : Task → Task) (l : list Task) :
  (∀ u, id (f u) = id u) → map id (modify_first task_id f l) = map id l.
Proof. apply In_modify_first_field. Qed.

Lemma NoDup_bool_filter {A : Type} (p : A → bool) (l : list A) :
  NoDup l → NoDup (List.filter p l).
Proof.
  induction 1 as [|x l Hx Hl IH]; simpl; [constructor|].
  destruct (p x); [|exact IH]. constructor; [|exact IH].
  intros Hin. apply Hx. apply list_elem_of_In in Hin.
  apply filter_In in Hin as [Hin _]. now apply list_elem_of_In.
Qed.

Lemma unique_ids_kept :
  unique_ids (mkManager [] None)
  ∧ (∀ now ti de pr tg du m, unique_ids m →
       unique_ids (add_task now ti de pr tg du m).1)
  ∧ (∀ task_id m, unique_ids m → unique_ids (delete_task task_id m).1)
  ∧ (∀ task_id ti de pr tg du m, unique_ids m →
       unique_ids (update_task task_id ti de pr tg du m).1)
  ∧ (∀ task_id m, unique_ids m → unique_ids (toggle_complete task_id m).1)
  ∧ (∀ choice m m' out, unique_ids m →
       sort_tasks choice m = Returns (m', out) → unique_ids m').
Proof.
  unfold unique_ids. repeat apply conj.
  - constructor.
  - intros now ti de pr tg du m Hm. simpl. rewrite map_app. simpl.
    apply NoDup_app. split; [exact Hm|]. split; [|apply NoDup_singleton].
    intros i Hi Hi'. apply list_elem_of_singleton in Hi'.
    apply list_elem_of_In, in_map_iff in Hi as (t & <- & Ht).
    apply generate_id_above in Ht. lia.
  - intros task_id m Hm. rewrite delete_task_ids. now apply NoDup_bool_filter.
  - intros task_id ti de pr tg du m Hm. unfold update_task.
    destruct (find_task task_id m); [|exact Hm]. simpl.
    now rewrite modify_first_ids.
  - intros task_id m Hm. unfold toggle_complete.
    destruct (find_task task_id m); [|exact Hm]. simpl.
    now rewrite modify_first_ids.
  - intros choice m m' out Hm H. unfold sort_tasks in H.
    assert (Hs : ∀ K (ltb : K → K → bool) key,
               (ts ← list_sort ltb key (tasks m);
                Returns (save_tasks (mkManager ts (disk m)), ["Tasks sorted."]))
               = Returns (m', out) → NoDup (map id (tasks m'))).
    { intros K ltb key Hr. apply bind_Returns in Hr as (ts & Hts & [= <- _]).
      simpl. apply list_sort_perm in Hts. now rewrite Hts. }
    repeat case_bool_decide; try (eapply Hs; exact H).
    now injection H as <- _.
Qed.

(** Ids stay unique: a store without a file has unique ids, and
    [add_task], [delete_task], [update_task], [toggle_complete] and
    [sort_tasks] keep them unique. *)
Theorem unique_ids_invariant :
  unique_ids (mkManager [] None)
  ∧ (∀ now ti de pr tg du m, unique_ids m →
       unique_ids (add_task now ti de pr tg du m).1)
  ∧ (∀ task_id m, unique_ids m → unique_ids (delete_task task_id m).1)
  ∧ (∀ task_id ti de pr tg du m, unique_ids m →
       unique_ids (update_task task_id ti de pr tg du m).1)
  ∧ (∀ task_id m, unique_ids m → unique_ids (toggle_complete task_id m).1)
  ∧ (∀ choice m m' out, unique_ids m →
       sort_tasks choice m = Returns (m', out) → unique_ids m').
Proof. exact unique_ids_kept. Qed.

Lemma unique_ids_invariant_witness :
  let m := (add_task "2024-05-05 10:00:00" "a" "" "" "" "" (mkManager [] None)).1 in
  unique_ids m
  ∧ unique_ids (add_task "2024-05-05 10:00:01" "b" "" "" "" "" m).1.
Proof.
  intros m. destruct unique_ids_invariant as (H0 & Hadd & _).
  assert (Hm : unique_ids m) by (apply Hadd, H0).
  split; [exact Hm | apply Hadd, Hm].
Defined.

(** ** Toggling, updating, deleting *)

Lemma find_modify_first_other (task_id i : Z) (f : Task → Task) (l : list Task) :
  (∀ u, id (f u) = id u) → i ≠ task_id →
  List.find (λ task, id task =? i) (modify_first task_id f l)
  = List.find (λ task, id task =? i) l.
Proof.
  intros Hid Hne. induction l as [|u l IH]; simpl; [reflexivity|].
  destruct (Z.eqb_spec (id u) task_id) as [E|E]; simpl.
  - rewrite Hid. destruct (Z.eqb_spec (id u) i); [lia | reflexivity].
  - destruct (id u =? i); [reflexivity | exact IH].
Qed.

Lemma modify_first_twice (task_id : Z) (f : Task → Task) (l : list Task) :
  (∀ u, id (f u) = id u) → (∀ u, f (f u) = u) →
  modify_first task_id f (modify_first task_id f l) = l.
Proof.
  intros Hid Hinv. induction l as [|u l IH]; simpl; [reflexivity|].
  destruct (id u =? task_id) eqn:E; simpl.
  - now rewrite Hid, E, Hinv.
  - now rewrite E, IH.
Qed.

Lemma modify_first_length (task_id : Z) (f : Task → Task) (l : list Task) :
  length (modify_first task_id f l) = length l.
Proof.
  induction l as [|u l IH]; simpl; [reflexivity|].
  destruct (id u =? task_id); simpl; now rewrite ?IH.
Qed.

(** [toggle_complete] on an id the store holds flips [completed] of the
    first task with that id and nothing else of it, leaves what every
    other id finds, keeps the order and number of tasks, and saves;
    toggling again gives back the collection as it was. On an id the store
    does not hold it reports "Task not found." and leaves store and file
    as they were. *)
Theorem toggle_complete_spec (task_id : Z) (m : TodoManager) :
  (∀ t, find_task task_id m = Some t →
     let m' := (toggle_complete task_id m).1 in
     find_task task_id m'
     = Some (mkTask (id t) (title t) (description t) (priority t) (tags t)
               (due_date t) (negb (completed t)) (created_at t))
     ∧ (∀ i, i ≠ task_id → find_task i m' = find_task i m)
     ∧ map id (tasks m') = map id (tasks m)
     ∧ saved m'
     ∧ (toggle_complete task_id m').1 = save_tasks m)
  ∧ ((∀ t, In t (tasks m) → id t ≠ task_id) →
       toggle_complete task_id m = (m, ["Task not found."])).
Proof.
  split.
  - intros t Hfind m'.
    assert (Hm' : m' = save_tasks
              (mkManager (modify_first task_id flip_completed (tasks m)) (disk m))).
    { unfold m', toggle_complete. now rewrite Hfind. }
    assert (Hfind' : find_task task_id m' = Some (flip_completed t)).
    { rewrite Hm'. unfold find_task. simpl.
      now apply find_modify_first. }
    split; [exact Hfind'|]. split; [|split; [|split]].
    + intros i Hi. rewrite Hm'. unfold find_task. simpl.
      now apply find_modify_first_other.
    + rewrite Hm'. simpl. now apply modify_first_ids.
    + rewrite Hm'. reflexivity.
    + unfold toggle_complete at 1. rewrite Hfind'. rewrite Hm'. simpl.
      rewrite modify_first_twice; [reflexivity..|].
      intros [? ? ? ? ? ? co ?]. unfold flip_completed. simpl.
      now rewrite negb_involutive.
  - intros Hnone. unfold toggle_complete.
    now rewrite (proj2 (find_task_None task_id m) Hnone).
Qed.

Lemma toggle_complete_spec_witness :
  let t := mkTask 1 "Buy milk" "" "low" [] None false "2024-01-01 09:30:00" in
  let m := mkManager [t] None in
  find_task 1 m = Some t
  ∧ find_task 1 (toggle_complete 1 m).1
    = Some (mkTask 1 "Buy milk" "" "low" [] None true "2024-01-01 09:30:00")
  ∧ toggle_complete 7 m = (m, ["Task not found."]).
Proof.
  intros t m. destruct (toggle_complete_spec 1 m) as [H _].
  destruct (H t eq_refl) as [H1 _].
  split; [reflexivity|]. split; [exact H1|].
  destruct (toggle_complete_spec 7 m) as [_ H7]. apply H7.
  intros u [<-|[]]. discriminate.
Defined.

(** [update_task] on an id the store holds never changes the id, the
    completion flag or the creation time of the task, leaves what every
    other id finds, keeps the order and number of tasks, and saves. On an
    id the store does not hold it reports "Task not found." and leaves
    store and file as they were. *)
Theorem update_task_frame (task_id : Z) (ti de pr tg du : string)
    (m : TodoManager) :
  (∀ t, find_task task_id m = Some t →
     let m' := (update_task task_id ti de pr tg du m).1 in
     (∃ t', find_task task_id m' = Some t'
            ∧ id t' = id t ∧ completed t' = completed t
            ∧ created_at t' = created_at t)
     ∧ (∀ i, i ≠ task_id → find_task i m' = find_task i m)
     ∧ map id (tasks m') = map id (tasks m)
     ∧ map created_at (tasks m') = map created_at (tasks m)
     ∧ map completed (tasks m') = map completed (tasks m)
     ∧ saved m')
  ∧ ((∀ t, In t (tasks m) → id t ≠ task_id) →
       update_task task_id ti de pr tg du m = (m, ["Task not found."])).
Proof.
  split.
  - intros t Hfind m'.
    assert (Hm' : m' = save_tasks
              (mkManager (modify_first task_id (update_fields ti de pr tg du)
                            (tasks m)) (disk m))).
    { unfold m', update_task. now rewrite Hfind. }
    split; [|split; [|split; [|split; [|split]]]].
    + destruct (update_task_found task_id ti de pr tg du m t Hfind) as [H _].
      eexists. split; [exact H|]. repeat split.
    + intros i Hi. rewrite Hm'. unfold find_task. simpl.
      now apply find_modify_first_other.
    + rewrite Hm'. simpl. now apply In_modify_first_field.
    + rewrite Hm'. simpl. now apply In_modify_first_field.
    + rewrite Hm'. simpl. now apply In_modify_first_field.
    + rewrite Hm'. reflexivity.
  - intros Hnone. unfold update_task.
    now rewrite (proj2 (find_task_None task_id m) Hnone).
Qed.

Lemma update_task_frame_witness :
  let t := mkTask 1 "Buy milk" "" "low" [] None true "2024-01-01 09:30:00" in
  let m := mkManager [t] None in
  find_task 1 m = Some t
  ∧ map completed (tasks (update_task 1 "Buy tea" "x" "high" "a" "b" m).1) = [true]
  ∧ update_task 7 "Buy tea" "x" "high" "a" "b" m = (m, ["Task not found."]).
Proof.
  intros t m. destruct (update_task_frame 1 "Buy tea" "x" "high" "a" "b" m) as [H _].
  destruct (H t eq_refl) as (_ & _ & _ & _ & H1 & _).
  split; [reflexivity|]. split; [exact H1|].
  destruct (update_task_frame 7 "Buy tea" "x" "high" "a" "b" m) as [_ H7].
  apply H7. intros u [<-|[]]. discriminate.
Defined.

Lemma filter_idem {A : Type} (p : A → bool) (l : list A) :
  List.filter p (List.filter p l) = List.filter p l.
Proof.
  induction l as [|x l IH]; simpl; [reflexivity|].
  destruct (p x) eqn:E; simpl; [now rewrite E, IH | exact IH].
Qed.

Lemma find_filter_other (task_id i : Z) (l : list Task) :
  i ≠ task_id →
  List.find (λ task, id task =? i)
    (List.filter (λ task, negb (id task =? task_id)) l)
  = List.find (λ task, id task =? i) l.
Proof.
  intros Hne. induction l as [|u l IH]; simpl; [reflexivity|].
  destruct (Z.eqb_spec (id u) task_id) as [E|E]; simpl.
  - destruct (Z.eqb_spec (id u) i); [lia | exact IH].
  - destruct (id u =? i); [reflexivity | exact IH].
Qed.

(** [delete_task] removes every task with the id (all of them, should the
    file have held several) and keeps the others in their order; the id
    is then no longer found while every other id finds what it found
    before; the file is rewritten; and deleting the same id again changes
    nothing more. *)
Theorem delete_task_spec (task_id : Z) (m : TodoManager) :
  let m' := (delete_task task_id m).1 in
  (∀ t, In t (tasks m') ↔ In t (tasks m) ∧ id t ≠ task_id)
  ∧ sublist (tasks m') (tasks m)
  ∧ find_task task_id m' = None
  ∧ (∀ i, i ≠ task_id → find_task i m' = find_task i m)
  ∧ saved m'
  ∧ delete_task task_id m' = delete_task task_id m.
Proof.
  intros m'. destruct (delete_task_removes task_id m) as (Hin & Hnone & _).
  split; [exact Hin|]. split; [apply filter_sublist|].
  split; [exact Hnone|]. split; [|split; [reflexivity|]].
  - intros i Hi. unfold find_task. simpl. now apply find_filter_other.
  - unfold delete_task. simpl. now rewrite filter_idem.
Qed.

(** ** Filtering *)

Lemma filter_partition {A : Type} (p : A → bool) (l : list A) :
  Permutation (List.filter p l ++ List.filter (λ x, negb (p x)) l) l.
Proof.
  induction l as [|x l IH]; simpl; [reflexivity|].
  destruct (p x); simpl.
  - now constructor.
  - rewrite <- Permutation_middle. now constructor.
Qed.

(** The choices "1" and "2" of [filter_tasks] split the collection in
    two: the completed tasks and the others, each in collection order,
    every task in exactly one of the two lists. *)
Theorem filter_by_completion (m : TodoManager) (p : string) :
  ∃ done todo,
    filter_results "1" p m = Some done ∧ filter_results "2" p m = Some todo
    ∧ (∀ t, In t done ↔ In t (tasks m) ∧ completed t = true)
    ∧ (∀ t, In t todo ↔ In t (tasks m) ∧ completed t = false)
    ∧ sublist done (tasks m) ∧ sublist todo (tasks m)
    ∧ Permutation (done ++ todo) (tasks m).
Proof.
  eexists _, _. split; [reflexivity|]. split; [reflexivity|].
  split; [|split; [|split; [|split]]].
  - intros t. apply filter_In.
  - intros t. rewrite filter_In, negb_true_iff. reflexivity.
  - apply filter_sublist.
  - apply filter_sublist.
  - apply (filter_partition (λ t, completed t)).
Qed.

Lemma filter_none {A : Type} (p : A → bool) (l : list A) :
  (∀ x, In x l → p x = false) → List.filter p l = [].
Proof.
  induction l as [|x l IH]; simpl; intros H; [reflexivity|].
  rewrite H by auto. apply IH. auto.
Qed.

(** The choice "3" of [filter_tasks] keeps, in collection order, the
    tasks whose priority is the typed text, letter for letter: the answer
    is neither lowercased nor checked, so on a store whose priorities are
    the three lowercase names an answer that is none of them (such as
    "High") lists nothing. Any choice other than "1", "2", "3" prints
    "Invalid choice.". *)
Theorem filter_by_priority (m : TodoManager) (p : string) :
  (∃ l, filter_results "3" p m = Some l
        ∧ (∀ t, In t l ↔ In t (tasks m) ∧ priority t = p)
        ∧ sublist l (tasks m))
  ∧ (valid_priorities m → ¬ In p priorities →
       filter_results "3" p m = Some [] ∧ filter_tasks "3" p m = [])
  ∧ (∀ choice, choice ≠ "1" → choice ≠ "2" → choice ≠ "3" →
       filter_tasks choice p m = ["Invalid choice."]).
Proof.
  assert (Hin : ∀ t, In t (List.filter (λ t, bool_decide (priority t = p)) (tasks m))
                     ↔ In t (tasks m) ∧ priority t = p).
  { intros t. now rewrite filter_In, bool_decide_eq_true. }
  split; [|split].
  - eexists. split; [reflexivity|]. split; [exact Hin | apply filter_sublist].
  - intros Hv Hp.
    assert (E : List.filter (λ t, bool_decide (priority t = p)) (tasks m) = []).
    { apply filter_none. intros t Ht. apply bool_decide_eq_false.
      intros Hpt. apply Hp. rewrite <- Hpt. now apply Hv. }
    assert (R : filter_results "3" p m
                = Some (List.filter (λ t, bool_decide (priority t = p)) (tasks m)))
      by reflexivity.
    unfold filter_tasks. rewrite R, E. split; reflexivity.
  - intros choice H1 H2 H3. unfold filter_tasks, filter_results.
    now rewrite !bool_decide_eq_false_2.
Qed.

Lemma filter_by_priority_witness :
  let m := mkManager
             [mkTask 1 "a" "" "high" [] None false "2024-01-01 09:30:00";
              mkTask 2 "b" "" "low" [] None false "2024-01-01 09:30:01"] None in
  valid_priorities m ∧ ¬ In "High" priorities
  ∧ filter_tasks "3" "High" m = []
  ∧ filter_tasks "3" "high" m = ["- 1 | a | high"]
  ∧ filter_tasks "x" "high" m = ["Invalid choice."].
Proof.
  intros m.
  assert (Hv : valid_priorities m).
  { intros t [<-|[<-|[]]]; simpl; auto. }
  assert (Hp : ¬ In "High" priorities).
  { intros [H|[H|[H|[]]]]; discriminate. }
  destruct (filter_by_priority m "High") as (_ & H & _).
  destruct (filter_by_priority m "high") as (_ & _ & Hx).
  split; [exact Hv|]. split; [exact Hp|].
  split; [exact (proj2 (H Hv Hp))|]. split; [reflexivity|].
  apply Hx; discriminate.
Defined.

(** ** Sorting by title and by creation time *)

Section list_sort_again.
Context {A K : Type} (ltb : K → K → bool).
Hypothesis ltb_asym : ∀ a b, ltb a b = true → ltb b a = false.
Hypothesis nlt_trans :
  ∀ a b c, ltb b a = false → ltb c b = false → ltb c a = false.

Lemma insert_keyed_front (x : K * A) (l : list (K * A)) :
  Forall (in_order ltb x) l → insert_keyed ltb x l = x :: l.
Proof.
  destruct l as [|y l]; [reflexivity|]. intros H.
  apply Forall_cons in H as [H _]. simpl. unfold in_order in H. now rewrite H.
Qed.

(** Sorting what is in order changes nothing. *)
Lemma sort_keyed_in_order (l : list (K * A)) :
  StronglySorted (in_order ltb) l → sort_keyed ltb l = l.
Proof.
  induction 1 as [|x l Hs IH Hx]; [reflexivity|].
  cbn [sort_keyed foldr]. fold (sort_keyed ltb l).
  rewrite IH. now apply insert_keyed_front.
Qed.

Lemma decorate_map_snd (key : A → outcome K) (s : list (K * A)) :
  Forall (λ y, key y.2 = Returns y.1) s → decorate key (map snd s) = Returns s.
Proof.
  unfold decorate. induction 1 as [|[k x] s Hy Hs IH]; simpl; [reflexivity|].
  simpl in Hy. rewrite Hy. simpl. now rewrite IH.
Qed.

Lemma list_sort_idem (key : A → outcome K) (l l' : list A) :
  list_sort ltb key l = Returns l' → list_sort ltb key l' = Returns l'.
Proof.
  unfold list_sort. intros H.
  apply bind_Returns in H as (keyed & Hk & [= <-]).
  apply decorated_inv in Hk as [_ Hinv].
  rewrite decorate_map_snd.
  - simpl. rewrite sort_keyed_in_order; [reflexivity|].
    now apply sort_keyed_sorted.
  - now rewrite sort_keyed_perm.
Qed.
End list_sort_again.

Lemma ltb_asym_string (a b : string) :
  String.ltb a b = true → String.ltb b a = false.
Proof.
  unfold String.ltb. rewrite (String.compare_antisym b a).
  destruct (String.compare a b); simpl; congruence.
Qed.

Lemma nlt_is_leb (a b : string) : String.ltb b a = false ↔ String.leb a b = true.
Proof.
  unfold String.ltb, String.leb. rewrite (String.compare_antisym b a).
  destruct (String.compare a b); simpl; split; congruence.
Qed.

Lemma nlt_trans_string (a b c : string) :
  String.ltb b a = false → String.ltb c b = false → String.ltb c a = false.
Proof.
  rewrite !nlt_is_leb. intros H1 H2.
  apply Is_true_true. apply Is_true_true in H1, H2.
  exact (transitivity (R := String.le) H1 H2).
Qed.

Lemma sort_tasks_by_text (choice : string) (kf : Task → string) (m : TodoManager) :
  sort_tasks choice m
  = (ts ← list_sort String.ltb (λ x, Returns (kf x)) (tasks m);
     Returns (save_tasks (mkManager ts (disk m)), ["Tasks sorted."])) →
  ∃ ts, sort_tasks choice m
        = Returns (mkManager ts (Some (map to_dict ts)), ["Tasks sorted."])
    ∧ Permutation ts (tasks m)
    ∧ StronglySorted (λ a b, String.leb (kf a) (kf b) = true) ts
    ∧ ∀ k, List.filter (λ t, bool_decide (kf t = k)) ts
           = List.filter (λ t, bool_decide (kf t = k)) (tasks m).
Proof.
  intros E.
  destruct (list_sort_total String.ltb ltb_asym_string nlt_trans_string kf
              (λ x, Returns (kf x)) (tasks m))
    as (ts & Hret & Hperm & Hsorted & Hstable); [reflexivity|].
  exists ts. rewrite E, Hret. split; [reflexivity|]. split; [exact Hperm|].
  split; [|exact Hstable].
  eapply StronglySorted_weaken; [|exact Hsorted].
  intros a b. simpl. apply nlt_is_leb.
Qed.

(** Sorting by title (choice "2") never fails: it leaves a permutation of
    the tasks in ascending order of the lowercased titles, character code
    by character code, keeps tasks whose titles agree up to case in the
    order they had, and saves. Titles "Banana", "apple" end as "apple",
    "Banana". *)
Theorem sort_by_title (m : TodoManager) :
  (∃ ts, sort_tasks "2" m
         = Returns (mkManager ts (Some (map to_dict ts)), ["Tasks sorted."])
     ∧ Permutation ts (tasks m)
     ∧ StronglySorted
         (λ a b, String.leb (Py.lower (title a)) (Py.lower (title b)) = true) ts
     ∧ ∀ k, List.filter (λ t, bool_decide (Py.lower (title t) = k)) ts
            = List.filter (λ t, bool_decide (Py.lower (title t) = k)) (tasks m))
  ∧ (∀ a b file, title a = "Banana" → title b = "apple" →
       sort_tasks "2" (mkManager [a; b] file)
       = Returns (mkManager [b; a] (Some (map to_dict [b; a])), ["Tasks sorted."])).
Proof.
  split.
  - now apply (sort_tasks_by_text "2" (λ t, Py.lower (title t))).
  - intros a b file Ha Hb. unfold sort_tasks, list_sort, decorate. simpl.
    rewrite Ha, Hb. reflexivity.
Qed.

Lemma sort_by_title_witness :
  let a := mkTask 1 "Banana" "" "low" [] None false "2024-01-01 09:30:00" in
  let b := mkTask 2 "apple" "" "low" [] None false "2024-01-01 09:30:01" in
  title a = "Banana" ∧ title b = "apple"
  ∧ sort_tasks "2" (mkManager [a; b] None)
    = Returns (mkManager [b; a] (Some (map to_dict [b; a])), ["Tasks sorted."]).
Proof.
  intros a b. split; [reflexivity|]. split; [reflexivity|].
  destruct (sort_by_title (mkManager [] None)) as [_ H].
  exact (H a b None eq_refl eq_refl).
Defined.

(** Sorting by creation date (choice "3") never fails: it leaves a
    permutation of the tasks in ascending order of the [created_at] texts,
    keeps tasks created in the same second in the order they had, and
    saves. *)
Theorem sort_by_created_at (m : TodoManager) :
  ∃ ts, sort_tasks "3" m
        = Returns (mkManager ts (Some (map to_dict ts)), ["Tasks sorted."])
    ∧ Permutation ts (tasks m)
    ∧ StronglySorted
        (λ a b, String.leb (created_at a) (created_at b) = true) ts
    ∧ ∀ k, List.filter (λ t, bool_decide (created_at t = k)) ts
           = List.filter (λ t, bool_decide (created_at t = k)) (tasks m).
Proof. now apply (sort_tasks_by_text "3" created_at). Qed.

(** Sorting is idempotent: when [sort_tasks] returns, running it again
    with the same choice on the store it left returns that same store. *)
Theorem sort_tasks_idempotent (choice : string) (m m' : TodoManager)
    (out : list string) :
  sort_tasks choice m = Returns (m', out) →
  sort_tasks choice m' = Returns (m', out).
Proof.
  unfold sort_tasks.
  assert (Hs : ∀ K (ltb : K → K → bool) key,
             (∀ a b, ltb a b = true → ltb b a = false) →
             (∀ a b c, ltb b a = false → ltb c b = false → ltb c a = false) →
             (ts ← list_sort ltb key (tasks m);
              Returns (save_tasks (mkManager ts (disk m)), ["Tasks sorted."]))
             = Returns (m', out) →
             (ts ← list_sort ltb key (tasks m');
              Returns (save_tasks (mkManager ts (disk m')), ["Tasks sorted."]))
             = Returns (m', out)).
  { intros K ltb key H1 H2 Hr.
    apply bind_Returns in Hr as (ts & Hts & [= <- <-]). simpl.
    now rewrite (list_sort_idem ltb H1 H2 key _ _ Hts). }
  repeat case_bool_decide; intros Hsort.
  - eapply Hs; [apply ltb_asym_nat | apply nlt_trans_nat | exact Hsort].
  - eapply Hs; [apply ltb_asym_string | apply nlt_trans_string | exact Hsort].
  - eapply Hs; [apply ltb_asym_string | apply nlt_trans_string | exact Hsort].
  - injection Hsort as <- <-. reflexivity.
Qed.

Lemma sort_tasks_idempotent_witness :
  let a := mkTask 1 "Banana" "" "low" [] None false "2024-01-01 09:30:00" in
  let b := mkTask 2 "apple" "" "low" [] None false "2024-01-01 09:30:01" in
  let m' := mkManager [b; a] (Some (map to_dict [b; a])) in
  sort_tasks "2" (mkManager [a; b] None) = Returns (m', ["Tasks sorted."])
  ∧ sort_tasks "2" m' = Returns (m', ["Tasks sorted."]).
Proof.
  intros a b m'.
  assert (H : sort_tasks "2" (mkManager [a; b] None) = Returns (m', ["Tasks sorted."]))
    by reflexivity.
  split; [exact H|]. exact (sort_tasks_idempotent "2" _ m' _ H).
Defined.

(** ** Saving *)

Lemma saved_or_untouched (m : TodoManager) :
  (∀ now ti de pr tg du, saved (add_task now ti de pr tg du m).1)
  ∧ (∀ task_id, saved (delete_task task_id m).1)
  ∧ (∀ task_id ti de pr tg du,
       let m' := (update_task task_id ti de pr tg du m).1 in m' = m ∨ saved m')
  ∧ (∀ task_id, let m' := (toggle_complete task_id m).1 in m' = m ∨ saved m')
  ∧ (∀ choice m' out, sort_tasks choice m = Returns (m', out) →
       m' = m ∨ saved m').
Proof.
  repeat apply conj.
  - reflexivity.
  - reflexivity.
  - intros task_id ti de pr tg du. unfold update_task.
    destruct (find_task task_id m); [right; reflexivity | now left].
  - intros task_id. unfold toggle_complete.
    destruct (find_task task_id m); [right; reflexivity | now left].
  - intros choice m' out. unfold sort_tasks.
    assert (Hs : ∀ K (ltb : K → K → bool) key,
               (ts ← list_sort ltb key (tasks m);
                Returns (save_tasks (mkManager ts (disk m)), ["Tasks sorted."]))
               = Returns (m', out) → saved m').
    { intros K ltb key Hr. apply bind_Returns in Hr as (ts & _ & [= <- _]).
      reflexivity. }
    repeat case_bool_decide; intros Hsort; try (right; eapply Hs; exact Hsort).
    left. now injection Hsort as <- _.
Qed.

(** No operation leaves an unsaved change: after [add_task] and
    [delete_task] the file holds the collection as it is in memory; after
    [update_task], [toggle_complete] and a [sort_tasks] that returns,
    either it does or store and file are exactly what they were. So once
    the file agrees with the collection it agrees after every operation. *)
Theorem no_unsaved_change (m : TodoManager) :
  (∀ now ti de pr tg du, saved (add_task now ti de pr tg du m).1)
  ∧ (∀ task_id, saved (delete_task task_id m).1)
  ∧ (∀ task_id ti de pr tg du,
       let m' := (update_task task_id ti de pr tg du m).1 in m' = m ∨ saved m')
  ∧ (∀ task_id, let m' := (toggle_complete task_id m).1 in m' = m ∨ saved m')
  ∧ (∀ choice m' out, sort_tasks choice m = Returns (m', out) →
       m' = m ∨ saved m').
Proof. exact (saved_or_untouched m). Qed.

Lemma no_unsaved_change_witness :
  let t := mkTask 1 "Buy milk" "" "low" [] None false "2024-01-01 09:30:00" in
  let m := mkManager [t] None in
  let m' := mkManager [t] (Some [to_dict t]) in
  sort_tasks "3" m = Returns (m', ["Tasks sorted."]) ∧ (m' = m ∨ saved m').
Proof.
  intros t m m'.
  assert (H : sort_tasks "3" m = Returns (m', ["Tasks sorted."])) by reflexivity.
  split; [exact H|].
  exact (proj2 (proj2 (proj2 (proj2 (no_unsaved_change m)))) "3" m' _ H).
Defined.

(** ** The menu loop *)

Section console_facts.
Variable int : string → option Z.
Variable clock : nat → string.

Local Ltac turn_cases :=
  repeat first
    [ case_bool_decide
    | match goal with
      | |- context [match ?x with _ => _ end] => destruct x eqn:?
      end ].

(** A turn that goes on has read at least one line. *)
Lemma menu_turn_reads (stdin stdin' : list string) (ticks ticks' : nat)
    (m m' : TodoManager) :
  menu_turn int clock stdin ticks m = Continue stdin' ticks' m' →
  ∃ read, read ≠ [] ∧ stdin = (read ++ stdin')%list.
Proof.
  unfold menu_turn. turn_cases; intros [= <- _ _]; subst;
    first [ solve [eexists [_]; split; [discriminate | reflexivity]]
          | solve [eexists [_; _]; split; [discriminate | reflexivity]]
          | solve [eexists [_; _; _]; split; [discriminate | reflexivity]]
          | solve [eexists [_; _; _; _; _; _];
                   split; [discriminate | reflexivity]]
          | solve [eexists [_; _; _; _; _; _; _];
                   split; [discriminate | reflexivity]] ].
Qed.

(** A turn that stops leaves the manager as it is, and stops with
    "Goodbye" only on the line "9". *)
Lemma menu_turn_stops (stdin : list string) (ticks : nat) (m m' : TodoManager)
    (e : ending) :
  menu_turn int clock stdin ticks m = Stop e m' →
  m' = m ∧ (e = Goodbye → In "9" stdin).
Proof.
  unfold menu_turn. turn_cases; intros [= <- <-]; subst;
    (split; [reflexivity|]); try discriminate; simpl; auto.
Qed.

(** A turn changes the store by one of the five operations only. *)
Lemma menu_turn_preserves (P : TodoManager → Prop) :
  (∀ n ti de pr tg du m, P m → P (add_task (clock n) ti de pr tg du m).1) →
  (∀ i m, P m → P (delete_task i m).1) →
  (∀ i ti de pr tg du m, P m → P (update_task i ti de pr tg du m).1) →
  (∀ i m, P m → P (toggle_complete i m).1) →
  (∀ c m m' out, P m → sort_tasks c m = Returns (m', out) → P m') →
  ∀ stdin stdin' ticks ticks' m m',
    P m → menu_turn int clock stdin ticks m = Continue stdin' ticks' m' → P m'.
Proof.
  intros Hadd Hdel Hupd Htog Hsort stdin stdin' ticks ticks' m m' Hm.
  unfold menu_turn. turn_cases; intros [= _ _ <-]; subst; eauto;
    first [ exact (Hadd _ _ _ _ _ _ _ Hm) | exact (Hdel _ _ Hm) ].
Qed.

Lemma menu_loop_ends (fuel : nat) (stdin : list string) (ticks : nat)
    (m : TodoManager) :
  (length stdin < fuel)%nat →
  ∃ e m', menu_loop int clock fuel stdin ticks m = Some (e, m')
          ∧ (e = Goodbye → In "9" stdin).
Proof.
  revert stdin ticks m. induction fuel as [|fuel IH]; intros stdin ticks m Hlen;
    [lia|].
  simpl. destruct (menu_turn int clock stdin ticks m) as [stdin' ticks' m'|e m']
    eqn:E.
  - apply menu_turn_reads in E as (read & Hread & ->).
    destruct (IH stdin' ticks' m') as (e & m'' & Hrun & H9).
    { rewrite length_app in Hlen. destruct read; [congruence | simpl in Hlen; lia]. }
    exists e, m''. split; [exact Hrun|].
    intros Hg. apply in_or_app. right. now apply H9.
  - apply menu_turn_stops in E as (_ & H9). eauto.
Qed.

Lemma menu_loop_preserves (P : TodoManager → Prop) :
  (∀ n ti de pr tg du m, P m → P (add_task (clock n) ti de pr tg du m).1) →
  (∀ i m, P m → P (delete_task i m).1) →
  (∀ i ti de pr tg du m, P m → P (update_task i ti de pr tg du m).1) →
  (∀ i m, P m → P (toggle_complete i m).1) →
  (∀ c m m' out, P m → sort_tasks c m = Returns (m', out) → P m') →
  ∀ fuel stdin ticks m e m',
    P m → menu_loop int clock fuel stdin ticks m = Some (e, m') → P m'.
Proof.
  intros Hadd Hdel Hupd Htog Hsort.
  induction fuel as [|fuel IH]; intros stdin ticks m e m' Hm; simpl;
    [discriminate|].
  destruct (menu_turn int clock stdin ticks m) as [stdin' ticks' m1|e1 m1] eqn:E.
  - apply IH.
    exact (menu_turn_preserves P Hadd Hdel Hupd Htog Hsort _ _ _ _ _ _ Hm E).
  - intros [= <- <-]. apply menu_turn_stops in E as (-> & _). exact Hm.
Qed.

(** Whatever is typed, the loop of [main] comes to an end, after at most
    one turn for each line typed and one more: it stops at option "9" or
    at an exception, and it says "Goodbye" only if a line "9" was typed. *)
Theorem session_ends (stdin : list string) (m : TodoManager) :
  ∃ e m', session int clock stdin m = Some (e, m')
          ∧ (e = Goodbye → In "9" stdin).
Proof. apply menu_loop_ends. lia. Qed.

(** The loop of [main] changes the store through [add_task],
    [delete_task], [update_task], [toggle_complete] and [sort_tasks]
    only: a property of the manager that each of these keeps holds at the
    end of every session that it held at the start of. *)
Theorem session_preserves (P : TodoManager → Prop) :
  (∀ n ti de pr tg du m, P m → P (add_task (clock n) ti de pr tg du m).1) →
  (∀ i m, P m → P (delete_task i m).1) →
  (∀ i ti de pr tg du m, P m → P (update_task i ti de pr tg du m).1) →
  (∀ i m, P m → P (toggle_complete i m).1) →
  (∀ c m m' out, P m → sort_tasks c m = Returns (m', out) → P m') →
  ∀ stdin m e m',
    P m → session int clock stdin m = Some (e, m') → P m'.
Proof.
  intros Hadd Hdel Hupd Htog Hsort stdin m e m'.
  apply (menu_loop_preserves P Hadd Hdel Hupd Htog Hsort).
Qed.

(** Through a whole session, whatever is typed: ids that were unique stay
    unique; if the clock never reads as the empty text, tasks that all
    carried a creation time still do; and at the end the file holds the
    collection as it is in memory, unless store and file are exactly what
    they were at the start. *)
Theorem session_keeps_invariants (stdin : list string) (m m' : TodoManager)
    (e : ending) :
  session int clock stdin m = Some (e, m') →
  (unique_ids m → unique_ids m')
  ∧ ((∀ n, clock n ≠ "") → stamped m → stamped m')
  ∧ (m' = m ∨ saved m').
Proof.
  intros Hrun. split; [|split].
  - intros Hm. destruct unique_ids_kept as (_ & Hadd & Hdel & Hupd & Htog & Hsort).
    eapply (menu_loop_preserves unique_ids); eauto.
  - intros Hclock Hm.
    eapply (menu_loop_preserves stamped); [| | | | |exact Hm|exact Hrun].
    + intros n. intros. now apply (stamped_kept (clock n) (Hclock n)).
    + intros. now apply (stamped_kept (clock 0%nat) (Hclock 0%nat)).
    + intros. now apply (stamped_kept (clock 0%nat) (Hclock 0%nat)).
    + intros. now apply (stamped_kept (clock 0%nat) (Hclock 0%nat)).
    + intros c m1 m2 out H1 H2.
      destruct (stamped_kept (clock 0%nat) (Hclock 0%nat)) as (_ & _ & _ & _ & _ & H).
      exact (H c m1 m2 out H1 H2).
  - eapply (menu_loop_preserves (λ x, x = m ∨ saved x));
      [| | | | |left; reflexivity|exact Hrun].
    + intros. right. apply saved_or_untouched.
    + intros. right. apply saved_or_untouched.
    + intros i ti de pr tg du m1 H1.
      destruct (saved_or_untouched m1) as (_ & _ & H & _).
      destruct (H i ti de pr tg du) as [E|E]; [rewrite E; exact H1 | now right].
    + intros i m1 H1.
      destruct (saved_or_untouched m1) as (_ & _ & _ & H & _).
      destruct (H i) as [E|E]; [rewrite E; exact H1 | now right].
    + intros c m1 m2 out H1 H2.
      destruct (saved_or_untouched m1) as (_ & _ & _ & _ & H).
      destruct (H c m2 out H2) as [E|E]; [rewrite E; exact H1 | now right].
Qed.
End console_facts.

Lemma session_ends_witness :
  let int := λ s : string, if bool_decide (s = "1") then Some 1 else None in
  let clock := λ _ : nat, "2024-05-05 10:00:00" in
  let stdin := ["1"; "Buy milk"; ""; "HIGH"; "home, shop"; ""; "5"; "1"; "9"] in
  session int clock stdin (mkManager [] None)
  = Some (Goodbye,
          save_tasks
            (mkManager
               [mkTask 1 "Buy milk" "" "high" ["home"; "shop"] None true
                  "2024-05-05 10:00:00"] None))
  ∧ In "9" stdin
  ∧ session int clock ["2"; "one"] (mkManager [] None)
    = Some (Uncaught ValueError, mkManager [] None).
Proof.
  intros int clock stdin.
  destruct (session_ends int clock stdin (mkManager [] None))
    as (e & m' & Hrun & H9).
  assert (E : session int clock stdin (mkManager [] None)
              = Some (Goodbye,
                      save_tasks
                        (mkManager
                           [mkTask 1 "Buy milk" "" "high" ["home"; "shop"] None
                              true "2024-05-05 10:00:00"] None)))
    by reflexivity.
  split; [exact E|]. split; [|reflexivity].
  apply H9. rewrite E in Hrun. now injection Hrun as <- _.
Defined.

Lemma session_preserves_witness :
  let int := λ s : string, if bool_decide (s = "1") then Some 1 else None in
  let clock := λ _ : nat, "2024-05-05 10:00:00" in
  let stdin := ["1"; "a"; ""; ""; ""; ""; "1"; "b"; ""; ""; ""; ""; "8"; "2"] in
  ∃ m', session int clock stdin (mkManager [] None) = Some (EOFError, m')
        ∧ unique_ids m'.
Proof.
  intros int clock stdin.
  destruct unique_ids_kept as (H0 & Hadd & Hdel & Hupd & Htog & Hsort).
  eexists. split; [reflexivity|].
  eapply (session_preserves int clock unique_ids
            (λ n, Hadd (clock n)) Hdel Hupd Htog Hsort stdin);
    [exact H0 | reflexivity].
Defined.

Lemma session_keeps_invariants_witness :
  let int := λ s : string, if bool_decide (s = "1") then Some 1 else None in
  let clock := λ _ : nat, "2024-05-05 10:00:00" in
  let stdin := ["1"; "a"; ""; ""; ""; ""; "3"; "1"; "b"; ""; ""; ""; ""; "9"] in
  ∃ m', session int clock stdin (mkManager [] None) = Some (Goodbye, m')
        ∧ unique_ids m' ∧ stamped m' ∧ saved m'.
Proof.
  intros int clock stdin. eexists. split; [reflexivity|].
  match goal with
  | |- unique_ids ?m' ∧ _ =>
      destruct (session_keeps_invariants int clock stdin (mkManager [] None) m'
                  Goodbye eq_refl) as (Hu & Hs & Hd)
  end.
  split; [apply Hu; constructor|]. split.
  - apply Hs; [intros n; discriminate | constructor].
  - destruct Hd as [Hd|Hd]; [discriminate Hd | exact Hd].
Defined.

Lemma add_task_then_find_witness :
  let t := mkTask 4 "Buy milk" "" "low" [] None false "2024-01-01 09:30:00" in
  let m := mkManager [t] None in
  generate_id m = 5
  ∧ find_task 5 (add_task "2024-05-05 10:00:00" "" "d" "x" "" " tomorrow " m).1
    = Some (mkTask 5 "" "d" "medium" [] (Some " tomorrow ") false
              "2024-05-05 10:00:00")
  ∧ find_task 4 (add_task "2024-05-05 10:00:00" "" "d" "x" "" " tomorrow " m).1
    = Some t.
Proof.
  intros t m.
  destruct (add_task_then_find "2024-05-05 10:00:00" "" "d" "x" "" " tomorrow " m)
    as (_ & _ & Hother & _).
  split; [reflexivity|]. split; [reflexivity|].
  rewrite (Hother 4); [reflexivity | discriminate].
Defined.

Lemma delete_task_spec_witness :
  let a := mkTask 1 "a" "" "low" [] None false "2024-01-01 09:30:00" in
  let b := mkTask 2 "b" "" "low" [] None false "2024-01-01 09:30:01" in
  let c := mkTask 1 "c" "" "low" [] None false "2024-01-01 09:30:02" in
  let m := mkManager [a; b; c] None in
  tasks (delete_task 1 m).1 = [b]
  ∧ find_task 2 (delete_task 1 m).1 = Some b.
Proof.
  intros a b c m. destruct (delete_task_spec 1 m) as (_ & _ & _ & Hother & _).
  split; [reflexivity|]. rewrite (Hother 2); [reflexivity | discriminate].
Defined.

(** ** Search beyond Latin-1 *)

Lemma wide_lower_from (before : list Wide.char) (s : string) :
  Wide.lower_from before (Wide.of_string s) = Wide.of_string (Py.lower s).
Proof.
  revert before. induction s as [|c s IH]; intros before; simpl;
    [reflexivity|].
  now rewrite IH.
Qed.

Lemma wide_startswith (k s : string) :
  Wide.startswith (Wide.of_string k) (Wide.of_string s) = Py.startswith k s.
Proof.
  revert s. induction k as [|a k IH]; intros s; [reflexivity|].
  destruct s as [|b s]; [reflexivity|]. simpl. rewrite IH. f_equal.
  destruct (Ascii.eqb_spec a b) as [->|Hne].
  - now apply bool_decide_eq_true.
  - apply bool_decide_eq_false. congruence.
Qed.

Lemma wide_contains (k s : string) :
  Wide.contains (Wide.of_string k) (Wide.of_string s) = Py.contains k s.
Proof.
  induction s as [|b s IH].
  - destruct k; reflexivity.
  - cbn [Wide.contains Py.contains Wide.of_string].
    change (Wide.Latin1 b :: Wide.of_string s) with (Wide.of_string (String b s)).
    now rewrite wide_startswith, IH.
Qed.

(** On Latin-1 text the wide search is the search of the store. *)
Lemma wide_search_results (keyword : string) (m : TodoManager) :
  Wide.search_results (Wide.of_string keyword) (map wide_task (tasks m))
  = map wide_task (search_results keyword m).
Proof.
  unfold Wide.search_results, search_results, Wide.lower.
  rewrite wide_lower_from.
  induction (tasks m) as [|t l IH]; [reflexivity|].
  cbn [map List.filter]. unfold wide_task at 1 2. cbn [Wide.title Wide.description].
  rewrite !wide_lower_from, !wide_contains.
  destruct (Py.contains _ _ || Py.contains _ _); cbn [map]; now rewrite IH.
Qed.

